(** * network-enum-toolkit: SNMPv1 community probe and LDAP anonymous-bind probe

    A shallow embedding of [scripts/snmp_enumrate/snmp_enum.py] and
    [ldap_anonymous_check.py].

    Python values are modelled as follows.
    - A [str] is the list of its Unicode code points ([pystr]); a [bytes]
      object is the list of its byte values ([pybytes]).
    - A [dict] is an association list that keeps insertion order, as
      Python dicts do; assigning to an existing key keeps its position.
    - A call that may raise returns a [py_result]; calls into the network
      and into the client libraries (socket, ldap3, pysnmp) get their
      outcome from an oracle that the caller of the model supplies. *)

From Stdlib Require Import ZArith List String Ascii Bool Lia DecimalString.
Import ListNotations.
Open Scope Z_scope.
Set Warnings "-register-all".

(* ================================================================== *)
(** ** Python strings, bytes and dicts *)
(* ================================================================== *)

Definition pystr := list Z.
Definition pybytes := list Z.

(** A string literal of the source, as code points. *)
Definition lit (s : string) : pystr :=
  map (fun a => Z.of_nat (nat_of_ascii a)) (list_ascii_of_string s).

(** [str(n)] for a non-negative integer. *)
Definition str_of_nat (n : nat) : pystr :=
  lit (NilEmpty.string_of_uint (Nat.to_uint n)).

Fixpoint pystr_eqb (a b : pystr) : bool :=
  match a, b with
  | [], [] => true
  | x :: a', y :: b' => (x =? y) && pystr_eqb a' b'
  | _, _ => false
  end.

(** [s.startswith(p)] on strings, and the prefix test used by [in] on
    bytes. *)
Fixpoint startswith (s p : list Z) : bool :=
  match p, s with
  | [], _ => true
  | y :: p', x :: s' => (x =? y) && startswith s' p'
  | _ :: _, [] => false
  end.

(** [needle in hay] for two [bytes] objects (and for two [str]). *)
Fixpoint contains (hay needle : list Z) : bool :=
  startswith hay needle ||
  match hay with
  | [] => false
  | _ :: hay' => contains hay' needle
  end.

(** [sep.join(parts)] for parts that are all [str]. *)
Fixpoint str_join (sep : pystr) (parts : list pystr) : pystr :=
  match parts with
  | [] => []
  | [p] => p
  | p :: rest => p ++ sep ++ str_join sep rest
  end.

Section Dict.
Context {V : Type}.

Definition dict := list (pystr * V).

Fixpoint dict_get (d : dict) (k : pystr) : option V :=
  match d with
  | [] => None
  | (k', v) :: d' => if pystr_eqb k' k then Some v else dict_get d' k
  end.

Definition dict_has (d : dict) (k : pystr) : bool :=
  match dict_get d k with Some _ => true | None => false end.

(** [d[k] = v] *)
Fixpoint dict_set (d : dict) (k : pystr) (v : V) : dict :=
  match d with
  | [] => [(k, v)]
  | (k', v') :: d' =>
      if pystr_eqb k' k then (k', v) :: d' else (k', v') :: dict_set d' k v
  end.

Definition dict_keys (d : dict) : list pystr := map fst d.
End Dict.
Arguments dict V : clear implicits.

(** Exceptions of the built-in kinds the two scripts can meet.  The
    message is what [str(e)] gives. *)
Inductive exn_kind :=
  | TypeError | ValueError | UnicodeEncodeError | AttributeError
  | IndexError | KeyError | OSError | OverflowError | LibraryError.

Record exn := Exn { ekind : exn_kind; emsg : pystr }.

Inductive py_result (A : Type) :=
  | Ret (a : A)
  | Raise (e : exn).
Arguments Ret {A} a.
Arguments Raise {A} e.

Definition rbind {A B} (r : py_result A) (k : A -> py_result B) : py_result B :=
  match r with
  | Ret a => k a
  | Raise e => Raise e
  end.

Declare Scope py_scope.
Delimit Scope py_scope with py.
Notation "x <- c ;; k" := (rbind c (fun x => k))
  (at level 61, c at next level, right associativity) : py_scope.

(* ================================================================== *)
(** ** scripts/snmp_enumrate/snmp_enum.py *)
(* ================================================================== *)

Module Snmp.

(** *** Built-ins used by [raw_udp_check] *)

(** [chr(c).encode('utf-8')]: the strict codec refuses surrogates. *)
Definition utf8_char (c : Z) : option pybytes :=
  if c <? 0x80 then Some [c]
  else if c <? 0x800 then
    Some [Z.lor 0xC0 (Z.shiftr c 6); Z.lor 0x80 (Z.land c 0x3F)]
  else if c <? 0x10000 then
    if (0xD800 <=? c) && (c <=? 0xDFFF) then None
    else Some [Z.lor 0xE0 (Z.shiftr c 12);
               Z.lor 0x80 (Z.land (Z.shiftr c 6) 0x3F);
               Z.lor 0x80 (Z.land c 0x3F)]
  else
    Some [Z.lor 0xF0 (Z.shiftr c 18);
          Z.lor 0x80 (Z.land (Z.shiftr c 12) 0x3F);
          Z.lor 0x80 (Z.land (Z.shiftr c 6) 0x3F);
          Z.lor 0x80 (Z.land c 0x3F)].

(** One hexadecimal digit, in lower case as [str(e)] prints it. *)
Definition hex_char (d : Z) : Z := if d <? 10 then 48 + d else 87 + d.

(** The four digits of the escape [\uXXXX] that shows the character. *)
Definition hex4 (c : Z) : pystr :=
  [ hex_char (Z.land (Z.shiftr c 12) 15); hex_char (Z.land (Z.shiftr c 8) 15);
    hex_char (Z.land (Z.shiftr c 4) 15); hex_char (Z.land c 15) ].

(** How many code points at the head of [s] the codec refuses: the
    encoder reports a run of surrogates as one error. *)
Fixpoint refused_run (s : pystr) : nat :=
  match s with
  | [] => O
  | c :: s' =>
      match utf8_char c with
      | None => S (refused_run s')
      | Some _ => O
      end
  end.

(** The UnicodeEncodeError for the surrogate [c] at index [pos] that is
    followed by [more] further surrogates.  The message is [str(e)]: it
    shows the character when the run is one character long, and the
    first and last index otherwise. *)
Definition surrogates_not_allowed (pos : nat) (c : Z) (more : nat) : exn :=
  Exn UnicodeEncodeError
      (match more with
       | O => lit "'utf-8' codec can't encode character '\u" ++ hex4 c
              ++ lit "' in position " ++ str_of_nat pos
       | S _ => lit "'utf-8' codec can't encode characters in position "
                ++ str_of_nat pos ++ lit "-" ++ str_of_nat (pos + more)
       end ++ lit ": surrogates not allowed").

(** [s.encode('utf-8')] for the part of a string that starts at index
    [pos]. *)
Fixpoint str_encode_from (pos : nat) (s : pystr) : py_result pybytes :=
  match s with
  | [] => Ret []
  | c :: s' =>
      match utf8_char c with
      | None => Raise (surrogates_not_allowed pos c (refused_run s'))
      | Some bs =>
          match str_encode_from (S pos) s' with
          | Ret rest => Ret (bs ++ rest)
          | Raise e => Raise e
          end
      end
  end.

(** [s.encode('utf-8')] *)
Definition str_encode (s : pystr) : py_result pybytes := str_encode_from 0 s.

Definition hex_digit (a : ascii) : option Z :=
  let n := Z.of_nat (nat_of_ascii a) in
  if (48 <=? n) && (n <=? 57) then Some (n - 48)
  else if (97 <=? n) && (n <=? 102) then Some (n - 87)
  else if (65 <=? n) && (n <=? 70) then Some (n - 55)
  else None.

Definition non_hex : exn :=
  Exn ValueError (lit "non-hexadecimal number found in fromhex() arg").

Fixpoint fromhex_chars (cs : list ascii) : py_result pybytes :=
  match cs with
  | [] => Ret []
  | hi :: lo :: cs' =>
      match hex_digit hi, hex_digit lo with
      | Some h, Some l =>
          match fromhex_chars cs' with
          | Ret rest => Ret (16 * h + l :: rest)
          | Raise e => Raise e
          end
      | _, _ => Raise non_hex
      end
  | [_] => Raise non_hex
  end.

(** [bytes.fromhex(s)] on a string of hex digit pairs. *)
Definition bytes_fromhex (s : string) : py_result pybytes :=
  fromhex_chars (list_ascii_of_string s).

Definition byte_out_of_range : exn :=
  Exn ValueError (lit "bytes must be in range(0, 256)").

(** [bytes([n])] *)
Definition bytes_of_int (n : Z) : py_result pybytes :=
  if (0 <=? n) && (n <? 256) then Ret [n] else Raise byte_out_of_range.

Definition len {A} (l : list A) : Z := Z.of_nat (List.length l).

(** *** Packet construction (lines 70-82) *)

Definition suffix_hex : string :=
  "a01c02040eb376f4020100020100300e300c06082b060102010105000500".

Definition build_payload (community : pystr) : py_result pybytes :=
  (community_bytes <- str_encode community ;;
   let comm_len := len community_bytes in
   rest <- bytes_fromhex suffix_hex ;;
   let inner0 := [0x02; 0x01; 0x00] in
   cl <- bytes_of_int comm_len ;;
   let inner1 := inner0 ++ ([0x04] ++ cl) in
   let inner2 := inner1 ++ community_bytes in
   let inner := inner2 ++ rest in
   let total_len := len inner in
   ll <- bytes_of_int total_len ;;
   Ret ([0x30] ++ ll ++ inner))%py.

(** *** The UDP exchange (lines 84-94)

    Lines 84 and 85 come before the [try]: an exception of
    [socket.socket] or of [settimeout] leaves the function, and nothing
    is sent.  Inside the [try], [sendto] followed by [recvfrom(4096)]
    either times out, raises another exception, or delivers a
    datagram. *)

Inductive udp_outcome :=
  | UdpTimeout
  | UdpError (e : exn)
  | UdpData (data : pybytes).

(** What the socket module does during one call: whether
    [socket.socket(AF_INET, SOCK_DGRAM)] returns, and the outcome of
    [sendto] and [recvfrom] for the target, port, timeout and the
    payload handed to [sendto]. *)
Record udp_oracle := {
  socket_socket : py_result unit;
  sendto_recvfrom : pystr -> Z -> Z -> pybytes -> udp_outcome
}.

(** [sock.settimeout(timeout)] for an [int], as CPython 3.11 does it:
    the seconds are first converted to nanoseconds in 64 bits, and a
    negative timeout is refused. *)
Definition settimeout (timeout : Z) : py_result unit :=
  if (timeout <? -9223372036) || (9223372036 <? timeout) then
    Raise (Exn OverflowError
               (lit "timestamp too large to convert to C _PyTime_t"))
  else if timeout <? 0 then
    Raise (Exn ValueError (lit "Timeout value out of range"))
  else Ret tt.

(** Lines 84-88: the socket is created and given its timeout, then the
    payload is sent and a datagram awaited. *)
Definition exchange (sock : udp_oracle) (target : pystr) (port timeout : Z)
           (payload : pybytes) : py_result udp_outcome :=
  (created <- socket_socket sock ;;
   set <- settimeout timeout ;;
   Ret (sendto_recvfrom sock target port timeout payload))%py.

(** *** Reply handling (lines 96-105) *)

(** The generator of line 96 yields [ch] itself, an [int], for a byte
    with [32 <= ch < 127], and the [str] ['.'] for any other byte. *)
Inductive join_item :=
  | ItemInt (n : Z)
  | ItemStr (s : pystr).

Definition printable_item (ch : Z) : join_item :=
  if (32 <=? ch) && (ch <? 127) then ItemInt ch else ItemStr (lit ".").

Definition join_type_error (idx : nat) : exn :=
  Exn TypeError
      (lit "sequence item " ++ str_of_nat idx
       ++ lit ": expected str instance, int found").

(** [''.join(items)]: [str.join] accepts [str] items only. *)
Fixpoint join_items (idx : nat) (items : list join_item) : py_result pystr :=
  match items with
  | [] => Ret []
  | ItemInt _ :: _ => Raise (join_type_error idx)
  | ItemStr s :: items' =>
      match join_items (S idx) items' with
      | Ret rest => Ret (s ++ rest)
      | Raise e => Raise e
      end
  end.

(** The character class [[ -~]]. *)
Definition in_class (c : Z) : bool := (32 <=? c) && (c <=? 126).

(** The longest prefix of [s] inside the class, and what follows it. *)
Fixpoint span_class (s : pystr) : pystr * pystr :=
  match s with
  | [] => ([], [])
  | c :: s' =>
      if in_class c
      then let (m, r) := span_class s' in (c :: m, r)
      else ([], s)
  end.

(** [re.findall(r'[ -~]{4,}', s)]: leftmost, greedy, non-overlapping
    matches.  Every step consumes a character, so [length s] steps do. *)
Fixpoint findall_from (fuel : nat) (s : pystr) : list pystr :=
  match fuel with
  | O => []
  | S fuel' =>
      match s with
      | [] => []
      | _ :: s' =>
          let (m, r) := span_class s in
          if 4 <=? len m then m :: findall_from fuel' r
          else findall_from fuel' s'
      end
  end.

Definition re_findall (s : pystr) : list pystr :=
  findall_from (List.length s) s.

Definition classify_reply (community : pystr) (data : pybytes)
  : py_result (bool * pystr) :=
  (printable <- join_items 0 (map printable_item data) ;;
   let runs := re_findall printable in
   let snippet :=
     match runs with
     | r :: _ => r
     | [] => firstn 200 printable
     end in
   needle <- str_encode community ;;
   if contains data needle then
     Ret (true, lit "response contains community '" ++ community
                ++ lit "'. Printable snippet: " ++ snippet)
   else
     match runs with
     | _ :: _ =>
         Ret (true, lit "response received (no community string visible): "
                    ++ snippet)
     | [] =>
         Ret (false, lit "received " ++ str_of_nat (List.length data)
                     ++ lit " bytes but no printable content")
     end)%py.

(** Lines 89-105: what the function makes of the exchange. *)
Definition after_exchange (community : pystr) (o : udp_outcome)
  : py_result (bool * pystr) :=
  match o with
  | UdpTimeout => Ret (false, lit "no response (timeout)")
  | UdpError e => Ret (false, lit "socket error: " ++ emsg e)
  | UdpData data => classify_reply community data
  end.

Definition raw_udp_check (sock : udp_oracle)
           (target : pystr) (port : Z) (community : pystr) (timeout : Z)
  : py_result (bool * pystr) :=
  (payload <- build_payload community ;;
   o <- exchange sock target port timeout payload ;;
   after_exchange community o)%py.

(** *** The library-mediated probe (lines 17-64) *)

Definition oids : list (pystr * pystr) :=
  [ (lit "sysDescr",    lit "1.3.6.1.2.1.1.1.0");
    (lit "sysObjectID", lit "1.3.6.1.2.1.1.2.0");
    (lit "sysUpTime",   lit "1.3.6.1.2.1.1.3.0");
    (lit "sysContact",  lit "1.3.6.1.2.1.1.4.0");
    (lit "sysName",     lit "1.3.6.1.2.1.1.5.0");
    (lit "sysLocation", lit "1.3.6.1.2.1.1.6.0") ].

(** What [next(getCmd(...))] does for one OID: it raises, or it returns
    [(errorIndication, errorStatus, errorIndex, varBinds)].  A variable
    binding is kept as the pair of its name and [str(v.prettyPrint())]. *)
Inductive get_reply :=
  | GetRaised (e : exn)
  | GetReply (errorIndication : option pystr) (errorStatus : Z)
             (errorIndex : Z) (varBinds : list (pystr * pystr)).

(** The agent as pysnmp presents it: one reply for each
    (target, port, community, timeout, oid). *)
Definition pysnmp_oracle := pystr -> Z -> pystr -> Z -> pystr -> get_reply.

Record enum_state := {
  results : dict pystr;
  success : bool;
  requested : list pystr   (* the OIDs handed to getCmd, oldest first *)
}.

Definition enum_init : enum_state :=
  {| results := []; success := false; requested := [] |}.

(** The inner loop, lines 54-56. *)
Definition store_varbinds (name : pystr) (varBinds : list (pystr * pystr))
           (st : enum_state) : enum_state :=
  fold_left
    (fun st ov =>
       {| results := dict_set (results st) name (snd ov);
          success := true;
          requested := requested st |})
    varBinds st.

(** One iteration of the loop of line 39. *)
Definition enum_step (getCmd : pystr -> get_reply)
           (st : enum_state) (entry : pystr * pystr) : enum_state :=
  let (name, oid) := entry in
  let st := {| results := results st; success := success st;
               requested := requested st ++ [oid] |} in
  match getCmd oid with
  | GetRaised _ => st
  | GetReply (Some _) _ _ _ => st
  | GetReply None errorStatus _ varBinds =>
      if errorStatus =? 0 then store_varbinds name varBinds st else st
  end.

Definition enum_loop (getCmd : pystr -> get_reply) : enum_state :=
  fold_left (enum_step getCmd) oids enum_init.

Definition format_results (d : dict pystr) : pystr :=
  str_join [10] (map (fun kv => fst kv ++ lit ": " ++ snd kv) d).

(** [pysnmp = None] stands for a failing import. *)
Definition try_pysnmp_enum (pysnmp : option pysnmp_oracle)
           (target : pystr) (port : Z) (community : pystr) (timeout : Z)
  : option bool * pystr :=
  match pysnmp with
  | None => (None, lit "pysnmp not installed")
  | Some lib =>
      let st := enum_loop (lib target port community timeout) in
      if success st then
        (Some true,
         lit "SNMPv1 enumeration succeeded:" ++ [10] ++ format_results (results st))
      else
        (Some false, lit "no valid responses for standard OIDs")
  end.

(** *** main (lines 107-132) *)

Record cli_args := {
  arg_target : pystr;
  arg_port : Z;
  arg_community : pystr;
  arg_timeout : Z
}.

(** How the process ends: [sys.exit(code)], or an exception that nothing
    catches. *)
Inductive ending :=
  | Exit (code : Z)
  | Crash (e : exn).

(** [str(n)] for an [int]. *)
Definition str_of_int (n : Z) : pystr :=
  if n <? 0 then lit "-" ++ str_of_nat (Z.to_nat (- n))
  else str_of_nat (Z.to_nat n).

(** The lines printed, oldest first, and the way the process ends. *)
Definition main (pysnmp : option pysnmp_oracle) (sock : udp_oracle)
           (args : cli_args) : list pystr * ending :=
  let target := arg_target args in
  let port := arg_port args in
  let community := arg_community args in
  let timeout := arg_timeout args in
  let banner :=
    lit "[+] Testing SNMPv1 community '" ++ community ++ lit "' on "
    ++ target ++ lit ":" ++ str_of_int port in
  let (ok, info) := try_pysnmp_enum pysnmp target port community timeout in
  match ok with
  | Some true =>
      ([banner; lit "[+] Valid community string detected." ++ [10] ++ info],
       Exit 0)
  | _ =>
      let notice :=
        match ok with
        | None => lit "[!] pysnmp not available, falling back to raw UDP check."
        | _ => lit "[-] pysnmp attempt failed: " ++ info
               ++ lit ". Falling back to raw UDP."
        end in
      match raw_udp_check sock target port community timeout with
      | Raise e => ([banner; notice], Crash e)
      | Ret (ok2, info2) =>
          if ok2 : bool then
            ([banner; notice; lit "[+] Raw UDP response received. " ++ info2],
             Exit 0)
          else
            ([banner; notice; lit "[-] No valid response. " ++ info2], Exit 2)
      end
  end.

End Snmp.

(* ================================================================== *)
(** ** A reference reader for BER (X.690), to say what bytes encode *)
(* ================================================================== *)

Module Ber.

Inductive tlv :=
  | Integer (n : Z)
  | OctetString (bs : pybytes)
  | Null
  | Oid (arcs : list Z)
  | Sequence (items : list tlv)
  | GetRequestPdu (items : list tlv).

Fixpoint uint_be (acc : Z) (bs : pybytes) : Z :=
  match bs with
  | [] => acc
  | b :: bs' => uint_be (256 * acc + b) bs'
  end.

Definition int_be (bs : pybytes) : Z :=
  match bs with
  | [] => 0
  | b :: _ =>
      if b <? 128 then uint_be 0 bs
      else uint_be 0 bs - 256 ^ Snmp.len bs
  end.

(** Sub-identifiers in base 128, high bit marking continuation. *)
Fixpoint subids (pending : bool) (acc : Z) (bs : pybytes) : option (list Z) :=
  match bs with
  | [] => if pending then None else Some []
  | b :: bs' =>
      let acc' := 128 * acc + Z.land b 127 in
      if 128 <=? b then subids true acc' bs'
      else option_map (cons acc') (subids false 0 bs')
  end.

Definition oid_arcs (bs : pybytes) : option (list Z) :=
  match subids false 0 bs with
  | Some (first :: more) =>
      if first <? 40 then Some (0 :: first :: more)
      else if first <? 80 then Some (1 :: first - 40 :: more)
      else Some (2 :: first - 80 :: more)
  | _ => None
  end.

(** The length octets: short form, or long form with [k] length bytes;
    the indefinite form and the reserved value are refused. *)
Definition read_length (bs : pybytes) : option (Z * pybytes) :=
  match bs with
  | [] => None
  | l :: r =>
      if l <? 128 then Some (l, r)
      else if (l =? 128) || (l =? 255) then None
      else
        let k := Z.to_nat (l - 128) in
        if (Z.of_nat k <=? Snmp.len r)
        then Some (uint_be 0 (firstn k r), skipn k r)
        else None
  end.

Fixpoint decode (fuel : nat) (bs : pybytes) : option (tlv * pybytes) :=
  match fuel with
  | O => None
  | S fuel' =>
      match bs with
      | [] => None
      | tag :: after_tag =>
          match read_length after_tag with
          | None => None
          | Some (n, r) =>
              if n <=? Snmp.len r then
                let content := firstn (Z.to_nat n) r in
                let rest := skipn (Z.to_nat n) r in
                let value :=
                  if tag =? 0x02 then
                    match content with [] => None | _ => Some (Integer (int_be content)) end
                  else if tag =? 0x04 then Some (OctetString content)
                  else if tag =? 0x05 then
                    match content with [] => Some Null | _ => None end
                  else if tag =? 0x06 then option_map Oid (oid_arcs content)
                  else if tag =? 0x30 then option_map Sequence (decode_all fuel' content)
                  else if tag =? 0xA0 then option_map GetRequestPdu (decode_all fuel' content)
                  else None in
                option_map (fun v => (v, rest)) value
              else None
          end
      end
  end
with decode_all (fuel : nat) (bs : pybytes) : option (list tlv) :=
  match fuel with
  | O => None
  | S fuel' =>
      match bs with
      | [] => Some []
      | _ :: _ =>
          match decode fuel' bs with
          | Some (v, rest) => option_map (cons v) (decode_all fuel' rest)
          | None => None
          end
      end
  end.

Record get_request := {
  request_id : Z;
  error_status : Z;
  error_index : Z;
  varbinds : list (list Z * tlv)
}.

Definition as_varbind (t : tlv) : option (list Z * tlv) :=
  match t with
  | Sequence [Oid arcs; value] => Some (arcs, value)
  | _ => None
  end.

Fixpoint all_some {A} (l : list (option A)) : option (list A) :=
  match l with
  | [] => Some []
  | Some a :: l' => option_map (cons a) (all_some l')
  | None :: _ => None
  end.

Definition as_get_request (t : tlv) : option get_request :=
  match t with
  | GetRequestPdu [Integer rid; Integer es; Integer ei; Sequence vbs] =>
      option_map
        (fun l => {| request_id := rid; error_status := es;
                     error_index := ei; varbinds := l |})
        (all_some (map as_varbind vbs))
  | _ => None
  end.

(** A whole PDU, with nothing after it. *)
Definition decode_pdu (bs : pybytes) : option get_request :=
  match decode (S (List.length bs)) bs with
  | Some (t, []) => as_get_request t
  | _ => None
  end.

Record message := {
  version : Z;
  community : pybytes;
  pdu : get_request
}.

(** A whole SNMP message, with nothing after it. *)
Definition decode_message (bs : pybytes) : option message :=
  match decode (S (List.length bs)) bs with
  | Some (Sequence [Integer v; OctetString c; p], []) =>
      option_map (fun r => {| version := v; community := c; pdu := r |})
                 (as_get_request p)
  | _ => None
  end.

(** The dotted form of an OID, as the table [Snmp.oids] writes it. *)
Definition dotted (arcs : list Z) : pystr :=
  str_join (lit ".") (map (fun a => str_of_nat (Z.to_nat a)) arcs).

End Ber.

(* ================================================================== *)
(** ** ldap_anonymous_check.py *)
(* ================================================================== *)

Module Ldap.

(** *** Values *)

(** Values that ldap3 hands back and that end up in [metadata]. *)
Inductive pyval :=
  | VNone
  | VBool (b : bool)
  | VInt (n : Z)
  | VStr (s : pystr)
  | VList (l : list pyval)
  | VDict (d : list (pystr * pyval)).

(** A reading of [time.time()]. *)
Definition time := Z.

(** [round(stop - start, 4)], kept symbolic. *)
Record elapsed := Elapsed { stop : time; start : time }.

Record result := {
  host : pystr;
  port : Z;
  use_ldaps : bool;
  starttls : bool;
  success : bool;
  error : option pystr;
  metadata : dict pyval;
  timings : dict elapsed
}.

Definition type_name (v : pyval) : pystr :=
  match v with
  | VNone => lit "NoneType"
  | VBool _ => lit "bool"
  | VInt _ => lit "int"
  | VStr _ => lit "str"
  | VList _ => lit "list"
  | VDict _ => lit "dict"
  end.

Definition truthy (v : pyval) : bool :=
  match v with
  | VNone => false
  | VBool b => b
  | VInt n => negb (n =? 0)
  | VStr [] | VList [] | VDict [] => false
  | VStr _ | VList _ | VDict _ => true
  end.

(** [v.get(k, default)] *)
Definition py_get (v : pyval) (k : pystr) (default : pyval) : py_result pyval :=
  match v with
  | VDict d =>
      Ret (match dict_get d k with Some x => x | None => default end)
  | _ =>
      Raise (Exn AttributeError
                 (lit "'" ++ type_name v ++ lit "' object has no attribute 'get'"))
  end.

(** [v[0]] *)
Definition py_index0 (v : pyval) : py_result pyval :=
  match v with
  | VList (x :: _) => Ret x
  | VList [] => Raise (Exn IndexError (lit "list index out of range"))
  | VStr (c :: _) => Ret (VStr [c])
  | VStr [] => Raise (Exn IndexError (lit "string index out of range"))
  | VDict _ => Raise (Exn KeyError (lit "0"))
  | _ =>
      Raise (Exn TypeError
                 (lit "'" ++ type_name v ++ lit "' object is not subscriptable"))
  end.

(** *** The outside world *)

Record entry := {
  entry_attributes_as_dict : py_result pyval;
  entry_str : py_result pystr                 (* str(entry) *)
}.

(** What the socket module, the clock and the client library do during
    one run.  A [bool] stands for the truth value of what a call
    returns: [conn_open] is [Ret false] for ldap3, whose
    [Connection.open()] returns [None] when it does not raise. *)
Record ldap_env := {
  time_time : nat -> time;                    (* the n-th reading *)
  create_connection : pystr -> Z -> Z -> py_result unit;
  Server : pystr -> Z -> bool -> Z -> py_result unit;
  Connection : py_result unit;
  conn_open : py_result bool;
  conn_start_tls : py_result bool;
  conn_last_error : pystr;                    (* str(conn.last_error) *)
  conn_bind : py_result bool;
  bind_result_text : pystr;                   (* str(conn.result) after bind *)
  server_info : py_result bool;               (* is server.info truthy *)
  info_to_dict : py_result pyval;             (* server.info.to_dict() *)
  schema_str : py_result pystr;               (* str(server.schema) *)
  server_str : py_result pystr;               (* str(server) *)
  search_root : py_result bool;               (* the root DSE search *)
  root_entries : list entry;                  (* conn.entries after it *)
  root_result : pyval;                        (* conn.result after it *)
  search_base : pyval -> py_result bool;      (* the sample search *)
  conn_unbind : py_result unit
}.

Inductive frag :=
  | FText (s : pystr)
  | FStr (v : pyval)                          (* str(v) *)
  | FStrTimings (t : dict elapsed)            (* str(timings) *)
  | FJson (v : pyval)                         (* json.dumps(v, indent=2) *)
  | FJsonResult (r : result).                 (* json.dumps(out, indent=2) *)

Inductive event :=
  | EvTcpConnect (h : pystr) (p : Z) (timeout : Z)
  | EvServer (h : pystr) (p : Z) (use_ssl : bool) (timeout : Z)
  | EvConnection
  | EvOpen
  | EvStartTls
  | EvBind
  | EvSearch (base : pyval)
  | EvUnbind
  | EvPrint (line : list frag).

(** *** State and exceptions *)

Record world := {
  res : result;            (* the dict [result], mutated in place *)
  conn : bool;             (* [conn] is not [None] *)
  ticks : nat;             (* readings of the clock so far *)
  trace : list event       (* calls made so far, oldest first *)
}.

Definition M (A : Type) := world -> py_result A * world.

Definition ret {A} (a : A) : M A := fun w => (Ret a, w).

Definition raise {A} (e : exn) : M A := fun w => (Raise e, w).

Definition mbind {A B} (c : M A) (k : A -> M B) : M B :=
  fun w =>
    match c w with
    | (Ret a, w') => k a w'
    | (Raise e, w') => (Raise e, w')
    end.

Declare Scope m_scope.
Delimit Scope m_scope with M.
Notation "x <- c ;; k" := (mbind c (fun x => k))
  (at level 61, c at next level, right associativity) : m_scope.
Notation "c ;; k" := (mbind c (fun _ => k))
  (at level 61, right associativity) : m_scope.

(** [try: c except Exception as e: h e] *)
Definition try_except {A} (c : M A) (h : exn -> M A) : M A :=
  fun w =>
    match c w with
    | (Ret a, w') => (Ret a, w')
    | (Raise e, w') => h e w'
    end.

(** [try: c finally: f] *)
Definition try_finally {A} (c : M A) (f : M unit) : M A :=
  fun w =>
    match c w with
    | (r, w') =>
        match f w' with
        | (Ret _, w'') => (r, w'')
        | (Raise e, w'') => (Raise e, w'')
        end
    end.

(** Run [c] and hand its outcome to the code after the [try]. *)
Definition attempt {A} (c : M A) : M (py_result A) :=
  fun w => match c w with (r, w') => (Ret r, w') end.

(** A value or attribute read that may raise. *)
Definition lift {A} (r : py_result A) : M A := fun w => (r, w).

(** A call that is recorded in the trace. *)
Definition call {A} (ev : event) (r : py_result A) : M A :=
  fun w =>
    (r, {| res := res w; conn := conn w; ticks := ticks w;
           trace := trace w ++ [ev] |}).

Definition update (f : result -> result) : M unit :=
  fun w =>
    (Ret tt, {| res := f (res w); conn := conn w; ticks := ticks w;
                trace := trace w |}).

Definition set_success (b : bool) : M unit :=
  update (fun r =>
    {| host := host r; port := port r; use_ldaps := use_ldaps r;
       starttls := starttls r; success := b; error := error r;
       metadata := metadata r; timings := timings r |}).

Definition set_error (msg : pystr) : M unit :=
  update (fun r =>
    {| host := host r; port := port r; use_ldaps := use_ldaps r;
       starttls := starttls r; success := success r; error := Some msg;
       metadata := metadata r; timings := timings r |}).

Definition set_metadata (k : pystr) (v : pyval) : M unit :=
  update (fun r =>
    {| host := host r; port := port r; use_ldaps := use_ldaps r;
       starttls := starttls r; success := success r; error := error r;
       metadata := dict_set (metadata r) k v; timings := timings r |}).

Definition set_timing (k : pystr) (v : elapsed) : M unit :=
  update (fun r =>
    {| host := host r; port := port r; use_ldaps := use_ldaps r;
       starttls := starttls r; success := success r; error := error r;
       metadata := metadata r; timings := dict_set (timings r) k v |}).

Definition get_metadata : M (dict pyval) := fun w => (Ret (metadata (res w)), w).

Definition get_conn : M bool := fun w => (Ret (conn w), w).

Definition set_conn : M unit :=
  fun w => (Ret tt, {| res := res w; conn := true; ticks := ticks w;
                       trace := trace w |}).

(** *** try_anonymous_bind (lines 28-151) *)

Section Probe.
Variable env : ldap_env.
Variables (host_arg : pystr) (port_arg : Z).
Variables (use_ldaps_arg starttls_arg : bool) (timeout : Z).

Local Open Scope m_scope.

(** [time.time()] *)
Definition now : M time :=
  fun w =>
    (Ret (time_time env (ticks w)),
     {| res := res w; conn := conn w; ticks := S (ticks w);
        trace := trace w |}).

(** Lines 42-47. *)
Definition tcp_gate : M unit :=
  tcp_start <- now ;;
  call (EvTcpConnect host_arg port_arg timeout)
       (create_connection env host_arg port_arg timeout) ;;
  tcp_end <- now ;;
  set_timing (lit "tcp_connect_s") (Elapsed tcp_end tcp_start).

(** Lines 88-103. *)
Definition harvest_server_info : M unit :=
  try_except
    (present <- lift (server_info env) ;;
     info <-
       (if present : bool then
          try_except
            (lift (info_to_dict env))
            (fun _ =>
               schema <- lift (schema_str env) ;;
               name <- lift (server_str env) ;;
               ret (VDict [ (lit "schema", VStr schema);
                            (lit "server_name", VStr name) ]))
        else ret (VDict [])) ;;
     set_metadata (lit "server_info") info)
    (fun e => set_metadata (lit "server_info_error") (VStr (emsg e))).

(** Lines 106-119. *)
Definition harvest_root_dse : M unit :=
  try_except
    (found <- call (EvSearch (VStr [])) (search_root env) ;;
     if found : bool then
       entry <-
         match root_entries env with
         | e :: _ => ret e
         | [] => raise (Exn IndexError (lit "list index out of range"))
         end ;;
       try_except
         (attrs <- lift (entry_attributes_as_dict entry) ;;
          set_metadata (lit "rootDSE") attrs)
         (fun _ =>
            text <- lift (entry_str entry) ;;
            set_metadata (lit "rootDSE") (VStr text))
     else
       set_metadata (lit "rootDSE_search_result") (root_result env))
    (fun e => set_metadata (lit "rootDSE_error") (VStr (emsg e))).

(** Lines 122-136. *)
Definition harvest_sample : M unit :=
  try_except
    (md <- get_metadata ;;
     let root :=
       match dict_get md (lit "rootDSE") with
       | Some v => v
       | None => VDict []
       end in
     naming <- lift (py_get root (lit "namingContexts") (VList [])) ;;
     if truthy naming then
       base <- lift (py_index0 naming) ;;
       found <- call (EvSearch base) (search_base env base) ;;
       if found : bool then
         set_metadata (lit "sample_base_found") (VBool true) ;;
         set_metadata (lit "sample_base") base
       else
         set_metadata (lit "sample_base_found") (VBool false)
     else
       set_metadata (lit "namingContexts_missing") (VBool true))
    (fun e => set_metadata (lit "sample_base_error") (VStr (emsg e))).

(** The branch taken when [conn.bind()] is truthy, lines 86-136. *)
Definition on_bind_success : M unit :=
  set_success true ;;
  harvest_server_info ;;
  harvest_root_dse ;;
  harvest_sample.

(** The body of the last [try], lines 62-139. *)
Definition ldap_ops : M unit :=
  bind_start <- now ;;
  call EvConnection (Connection env) ;;
  set_conn ;;
  opened <- call EvOpen (conn_open env) ;;
  (if opened : bool then ret tt
   else raise (Exn LibraryError (lit "Failed to open connection to server"))) ;;
  (if starttls_arg then
     (if use_ldaps_arg then
        raise (Exn ValueError
                   (lit "Cannot use StartTLS when using LDAPS (use one or the other)."))
      else ret tt) ;;
     upgraded <- call EvStartTls (conn_start_tls env) ;;
     if upgraded : bool then ret tt
     else raise (Exn LibraryError
                     (lit "StartTLS failed: " ++ conn_last_error env))
   else ret tt) ;;
  bound <- call EvBind (conn_bind env) ;;
  (if bound : bool then on_bind_success
   else
     set_success false ;;
     set_error (lit "Bind failed: " ++ bind_result_text env)) ;;
  bind_end <- now ;;
  set_timing (lit "bind_s") (Elapsed bind_end bind_start).

(** The [finally] clause, lines 144-149. *)
Definition cleanup (start_time : time) : M unit :=
  bound <- get_conn ;;
  (if bound : bool then
     try_except (call EvUnbind (conn_unbind env)) (fun _ => ret tt)
   else ret tt) ;;
  t <- now ;;
  set_timing (lit "total_s") (Elapsed t start_time).

Definition probe_body : M unit :=
  start_time <- now ;;
  tcp <- attempt tcp_gate ;;
  match tcp with
  | Raise e =>
      set_error (lit "TCP connection failed: " ++ emsg e) ;;
      t <- now ;;
      set_timing (lit "total_s") (Elapsed t start_time)
  | Ret _ =>
      server <- attempt (call (EvServer host_arg port_arg use_ldaps_arg timeout)
                              (Server env host_arg port_arg use_ldaps_arg timeout)) ;;
      match server with
      | Raise e =>
          set_error (lit "Server object creation failed: " ++ emsg e) ;;
          t <- now ;;
          set_timing (lit "total_s") (Elapsed t start_time)
      | Ret _ =>
          try_finally
            (try_except ldap_ops
               (fun e =>
                  set_error (lit "Exception during LDAP operations: " ++ emsg e)))
            (cleanup start_time)
      end
  end.

Definition initial_result : result :=
  {| host := host_arg; port := port_arg; use_ldaps := use_ldaps_arg;
     starttls := starttls_arg; success := false; error := None;
     metadata := []; timings := [] |}.

(** Runs the probe in a world whose trace so far is [before]: gives
    what the function returns (or raises) and the trace afterwards. *)
Definition try_anonymous_bind_from (before : list event)
  : py_result result * list event :=
  let w0 := {| res := initial_result; conn := false; ticks := 0;
               trace := before |} in
  match probe_body w0 with
  | (Ret _, w) => (Ret (res w), trace w)
  | (Raise e, w) => (Raise e, trace w)
  end.

Definition try_anonymous_bind : py_result result * list event :=
  try_anonymous_bind_from [].
End Probe.

(** *** normalize_host and main (lines 21-26, 153-207) *)

Record cli_args := {
  arg_host : pystr;
  arg_port : option Z;
  arg_use_ldaps : bool;
  arg_starttls : bool;
  arg_timeout : Z;
  arg_json : bool
}.

(** The two string built-ins of line 171-173 that depend on the Unicode
    character database, which is not part of the repository:
    [c.isdigit()] for one character and [int(s)]. *)
Record unicode_db := {
  char_isdigit : Z -> bool;
  int_of_str : pystr -> py_result Z
}.

(** What follows the first occurrence of [sep] in [s]:
    [s.split(sep, 1)[1]]. *)
Fixpoint after_first (sep s : pystr) : option pystr :=
  if startswith s sep then Some (skipn (List.length sep) s)
  else
    match s with
    | [] => None
    | _ :: s' => after_first sep s'
    end.

Definition normalize_host (host_arg : pystr) : py_result pystr :=
  if startswith host_arg (lit "ldap://") || startswith host_arg (lit "ldaps://")
  then
    match after_first (lit "://") host_arg with
    | Some rest => Ret rest
    | None => Raise (Exn IndexError (lit "list index out of range"))
    end
  else Ret host_arg.

Definition colon : Z := 58.

(** [s.count(':')] *)
Definition count_colon (s : pystr) : Z :=
  Snmp.len (filter (fun c => c =? colon) s).

(** [s.rsplit(':', 1)] when [s] has a colon: the parts around the last. *)
Fixpoint rsplit_colon (s : pystr) : option (pystr * pystr) :=
  match s with
  | [] => None
  | c :: s' =>
      match rsplit_colon s' with
      | Some (a, b) => Some (c :: a, b)
      | None => if c =? colon then Some ([], s') else None
      end
  end.

(** [s.isdigit()] *)
Definition str_isdigit (db : unicode_db) (s : pystr) : bool :=
  match s with
  | [] => false
  | _ :: _ => forallb (char_isdigit db) s
  end.

(** Lines 164-173: the host and the port the command line names. *)
Definition parse_target (db : unicode_db) (args : cli_args)
  : py_result (pystr * option Z) :=
  (raw_host <- normalize_host (arg_host args) ;;
   if contains raw_host [colon] && (count_colon raw_host =? 1)
      && negb (startswith raw_host (lit "["))
   then
     match rsplit_colon raw_host with
     | Some (before, after) =>
         if str_isdigit db after then
           n <- int_of_str db after ;;
           Ret (before, Some n)
         else Ret (raw_host, arg_port args)
     | None => Raise (Exn IndexError (lit "list index out of range"))
     end
   else Ret (raw_host, arg_port args))%py.

Definition config_error : event :=
  EvPrint [FJson (VDict [ (lit "error",
             VStr (lit "Cannot use both --starttls and --use-ldaps")) ])].

(** Lines 186-204. *)
Definition render (args : cli_args) (out : result) : list event :=
  if arg_json args then [EvPrint [FJsonResult out]]
  else
    let status := if success out then lit "ALLOWED" else lit "NOT ALLOWED" in
    [ EvPrint [FText (lit "Anonymous LDAP bind: " ++ status)];
      EvPrint [FText (lit "Host: " ++ host out ++ lit ":");
               FStr (VInt (port out));
               FText (lit "  LDAPS="); FStr (VBool (use_ldaps out));
               FText (lit "  StartTLS="); FStr (VBool (starttls out))] ]
    ++ match error out with
       | Some (_ :: _ as e) =>
           [EvPrint [FText (lit "Error / details:"); FText (lit " "); FText e]]
       | _ => []
       end
    ++ [ EvPrint [FText (lit "Timings (s):"); FText (lit " ");
                  FStrTimings (timings out)];
         EvPrint [FText (lit "Metadata (partial):")] ]
    ++ flat_map
         (fun k =>
            match dict_get (metadata out) k with
            | Some v => [EvPrint [FText (lit " - " ++ k ++ lit ": "); FStr v]]
            | None => []
            end)
         [ lit "rootDSE"; lit "server_info"; lit "namingContexts";
           lit "sample_base"; lit "sample_base_found" ]
    ++ [ EvPrint [FText ([10] ++ lit "Full JSON output:")];
         EvPrint [FJsonResult out] ].

Definition main (db : unicode_db) (env : ldap_env) (args : cli_args)
  : py_result unit * list event :=
  match parse_target db args with
  | Raise e => (Raise e, [])
  | Ret (target_host, explicit_port) =>
      let port :=
        match explicit_port with
        | Some p => p
        | None => if arg_use_ldaps args then 636 else 389
        end in
      if arg_starttls args && arg_use_ldaps args then
        (Ret tt, [config_error])
      else
        match try_anonymous_bind env target_host port (arg_use_ldaps args)
                                 (arg_starttls args) (arg_timeout args) with
        | (Raise e, tr) => (Raise e, tr)
        | (Ret out, tr) => (Ret tt, tr ++ render args out)
        end
  end.

(** A call that reaches out of the process. *)
Definition is_network (ev : event) : bool :=
  match ev with
  | EvTcpConnect _ _ _ | EvOpen | EvStartTls | EvBind | EvSearch _ | EvUnbind => true
  | EvServer _ _ _ _ | EvConnection | EvPrint _ => false
  end.

(** *** Worlds used in examples *)

(** The ASCII part of the Unicode tables, with the superscript digits
    two, three and one added: [isdigit] accepts them, [int] does not. *)
Definition ascii_digit (c : Z) : bool := (48 <=? c) && (c <=? 57).

Definition superscript_digit (c : Z) : bool :=
  (c =? 178) || (c =? 179) || (c =? 185).

(** The ValueError of [int(s)].  Its message ends with [repr(s)]; for
    a string that [isdigit] accepts, the only kind line 173 hands to
    [int], that is [s] between single quotes. *)
Definition invalid_literal (s : pystr) : exn :=
  Exn ValueError
      (lit "invalid literal for int() with base 10: '" ++ s ++ lit "'").

Definition sample_db : unicode_db :=
  {| char_isdigit := fun c => ascii_digit c || superscript_digit c;
     int_of_str := fun s =>
       match s with
       | [] => Raise (invalid_literal s)
       | _ :: _ =>
           if forallb ascii_digit s
           then Ret (fold_left (fun acc c => 10 * acc + (c - 48)) s 0)
           else Raise (invalid_literal s)
       end |}.

(** A reachable directory that accepts anonymous binds and answers
    every search, as ldap3 presents it: [Connection.open()] opens the
    socket and returns [None], so the value line 68 tests is false. *)
Definition open_directory : ldap_env :=
  {| time_time := fun n => Z.of_nat n;
     create_connection := fun _ _ _ => Ret tt;
     Server := fun _ _ _ _ => Ret tt;
     Connection := Ret tt;
     conn_open := Ret false;
     conn_start_tls := Ret true;
     conn_last_error := [];
     conn_bind := Ret true;
     bind_result_text := lit "{'result': 0}";
     server_info := Ret true;
     info_to_dict := Ret (VDict [(lit "vendor", VStr (lit "OpenLDAP"))]);
     schema_str := Ret (lit "schema");
     server_str := Ret (lit "ldap://h:389");
     search_root := Ret true;
     root_entries :=
       [ {| entry_attributes_as_dict :=
              Ret (VDict [(lit "namingContexts",
                           VList [VStr (lit "dc=example,dc=com")])]);
            entry_str := Ret (lit "DN: ") |} ];
     root_result := VDict [(lit "result", VInt 0)];
     search_base := fun _ => Ret true;
     conn_unbind := Ret tt |}.

Definition with_tcp (r : py_result unit) (e : ldap_env) : ldap_env :=
  {| time_time := time_time e;
     create_connection := fun _ _ _ => r;
     Server := Server e; Connection := Connection e;
     conn_open := conn_open e; conn_start_tls := conn_start_tls e;
     conn_last_error := conn_last_error e; conn_bind := conn_bind e;
     bind_result_text := bind_result_text e; server_info := server_info e;
     info_to_dict := info_to_dict e; schema_str := schema_str e;
     server_str := server_str e; search_root := search_root e;
     root_entries := root_entries e; root_result := root_result e;
     search_base := search_base e; conn_unbind := conn_unbind e |}.

End Ldap.

(* ================================================================== *)
(** ** Notions used in the statements *)
(* ================================================================== *)

(** The fixed PDU tail, byte by byte as the wire layout gives it. *)
Definition wire_tail : pybytes :=
  [ 0xA0; 0x1C; 0x02; 0x04; 0x0E; 0xB3; 0x76; 0xF4; 0x02; 0x01; 0x00;
    0x02; 0x01; 0x00; 0x30; 0x0E; 0x30; 0x0C; 0x06; 0x08; 0x2B; 0x06;
    0x01; 0x02; 0x01; 0x01; 0x05; 0x00; 0x05; 0x00 ].

(** [30 LL 02 01 00 04 CL <community bytes> <tail>] *)
Definition wire_layout (ll cl : Z) (community_bytes : pybytes) : pybytes :=
  [0x30; ll; 0x02; 0x01; 0x00; 0x04; cl] ++ community_bytes ++ wire_tail.

(** The value an OID returned: the reply came without exception, error
    indication or error status and carries a variable binding. *)
Definition returned_value (r : Snmp.get_reply) : option pystr :=
  match r with
  | Snmp.GetReply None errorStatus _ (vb :: vbs) =>
      if errorStatus =? 0 then Some (snd (last vbs vb)) else None
  | _ => None
  end.

(** The three keys under which the root DSE step reports. *)
Definition root_dse_keys (md : dict Ldap.pyval) : list bool :=
  [ dict_has md (lit "rootDSE");
    dict_has md (lit "rootDSE_search_result");
    dict_has md (lit "rootDSE_error") ].

(** A reply as an agent sends it: a GetResponse for community "public"
    with an empty OCTET STRING as value. *)
Definition sample_reply : pybytes :=
  [0x30; 0x29; 0x02; 0x01; 0x00; 0x04; 0x06] ++ lit "public"
  ++ [ 0xA2; 0x1C; 0x02; 0x04; 0x0E; 0xB3; 0x76; 0xF4; 0x02; 0x01; 0x00;
       0x02; 0x01; 0x00; 0x30; 0x0E; 0x30; 0x0C; 0x06; 0x08; 0x2B; 0x06;
       0x01; 0x02; 0x01; 0x01; 0x05; 0x00; 0x04; 0x00 ].

Definition replying (data : pybytes) : Snmp.udp_oracle :=
  {| Snmp.socket_socket := Ret tt;
     Snmp.sendto_recvfrom := fun _ _ _ _ => Snmp.UdpData data |}.

Definition silent : Snmp.udp_oracle :=
  {| Snmp.socket_socket := Ret tt;
     Snmp.sendto_recvfrom := fun _ _ _ _ => Snmp.UdpTimeout |}.

(** pysnmp in front of an agent that answers for sysName alone; every
    other request times out. *)
Definition one_name_agent : Snmp.pysnmp_oracle :=
  fun _ _ _ _ oid =>
    if pystr_eqb oid (lit "1.3.6.1.2.1.1.5.0")
    then Snmp.GetReply None 0 0 [(oid, lit "router1")]
    else Snmp.GetRaised (Exn LibraryError (lit "No SNMP response received before timeout")).

(** A byte that line 96 takes for printable. *)
Definition printable_byte (ch : Z) : bool := (32 <=? ch) && (ch <? 127).

Definition is_some {A} (o : option A) : bool :=
  match o with Some _ => true | None => false end.

(** The entries of the collected mapping that one table entry yields. *)
Definition collected_from (getCmd : pystr -> Snmp.get_reply)
           (entry : pystr * pystr) : list (pystr * pystr) :=
  match returned_value (getCmd (snd entry)) with
  | Some v => [(fst entry, v)]
  | None => []
  end.

(** A command that returns normally from every world, the worlds before
    and after being related by [R]. *)
Definition runs (c : Ldap.M unit) (R : Ldap.world -> Ldap.world -> Prop) : Prop :=
  forall w, exists w', c w = (Ret tt, w') /\ R w w'.

(** What a harvesting step may change: [metadata], and that only as [Q]
    allows. *)
Definition harvest_frame (Q : dict Ldap.pyval -> dict Ldap.pyval -> Prop)
           (w w' : Ldap.world) : Prop :=
  Ldap.conn w' = Ldap.conn w /\
  Ldap.success (Ldap.res w') = Ldap.success (Ldap.res w) /\
  Q (Ldap.metadata (Ldap.res w)) (Ldap.metadata (Ldap.res w')).

Definition same_root_dse_keys (md md' : dict Ldap.pyval) : Prop :=
  root_dse_keys md' = root_dse_keys md.

Definition one_root_dse_key (md md' : dict Ldap.pyval) : Prop :=
  exists k v,
    md' = dict_set md k v /\
    (k = lit "rootDSE" \/ k = lit "rootDSE_search_result"
     \/ k = lit "rootDSE_error").

(** Exactly one of the three keys is present. *)
Definition one_hot (keys : list bool) : Prop :=
  keys = [true; false; false] \/ keys = [false; true; false]
  \/ keys = [false; false; true].

(** The error the probe records when it meets both flags. *)
Definition conflict_message : pystr :=
  lit "Exception during LDAP operations: Cannot use StartTLS when using LDAPS (use one or the other).".

(** The error the probe records when line 69 raises. *)
Definition open_failed_message : pystr :=
  lit "Exception during LDAP operations: Failed to open connection to server".

(** A command line that asks for StartTLS and LDAPS at once. *)
Definition both_flags : Ldap.cli_args :=
  {| Ldap.arg_host := lit "ldaps://ldap.example.com:636";
     Ldap.arg_port := None;
     Ldap.arg_use_ldaps := true;
     Ldap.arg_starttls := true;
     Ldap.arg_timeout := 5;
     Ldap.arg_json := true |}.

(** The position of the first byte in 32..126, if there is one. *)
Fixpoint first_printable (data : pybytes) : nat :=
  match data with
  | [] => O
  | ch :: data' =>
      if printable_byte ch then O else S (first_printable data')
  end.

(** A code point of the surrogate range. *)
Definition surrogate (c : Z) : bool := (0xD800 <=? c) && (c <=? 0xDFFF).

(** The index of the first surrogate of a string, if it has one. *)
Fixpoint first_surrogate (s : pystr) : nat :=
  match s with
  | [] => O
  | c :: s' => if surrogate c then O else S (first_surrogate s')
  end.

(** The number of surrogates a string starts with. *)
Fixpoint surrogate_run (s : pystr) : nat :=
  match s with
  | [] => O
  | c :: s' => if surrogate c then S (surrogate_run s') else O
  end.

(** The request the fixed tail encodes. *)
Definition tail_request : Ber.get_request :=
  {| Ber.request_id := 0x0EB376F4;
     Ber.error_status := 0;
     Ber.error_index := 0;
     Ber.varbinds := [([1; 3; 6; 1; 2; 1; 1; 5; 0], Ber.Null)] |}.

(** Some OID of the table returned a value. *)
Definition some_value (getCmd : pystr -> Snmp.get_reply) : bool :=
  existsb (fun e => is_some (returned_value (getCmd (snd e)))) Snmp.oids.

(** A search call. *)
Definition is_search (ev : Ldap.event) : bool :=
  match ev with Ldap.EvSearch _ => true | _ => false end.

(** What the probe needs before it calls [conn.bind()]. *)
Definition bind_reached (env : Ldap.ldap_env) (h : pystr) (p : Z)
           (ul st : bool) (t : Z) : Prop :=
  Ldap.create_connection env h p t = Ret tt /\
  Ldap.Server env h p ul t = Ret tt /\
  Ldap.Connection env = Ret tt /\
  Ldap.conn_open env = Ret true /\
  (st = true -> ul = false /\ Ldap.conn_start_tls env = Ret true).

(** The probe returns, and what it returns satisfies [P]. *)
Definition after_probe (env : Ldap.ldap_env) (h : pystr) (p : Z)
           (ul st : bool) (t : Z)
           (P : Ldap.result -> list Ldap.event -> Prop) : Prop :=
  match Ldap.try_anonymous_bind env h p ul st t with
  | (Ret r, tr) => P r tr
  | (Raise _, _) => False
  end.

(** The world after a harvesting block: the metadata is [md], the calls
    [evs] were made, [success] is set when [flag] says so, and nothing
    else has changed. *)
Definition harvested (w : Ldap.world) (flag : bool) (md : dict Ldap.pyval)
           (evs : list Ldap.event) : Ldap.world :=
  {| Ldap.res :=
       {| Ldap.host := Ldap.host (Ldap.res w);
          Ldap.port := Ldap.port (Ldap.res w);
          Ldap.use_ldaps := Ldap.use_ldaps (Ldap.res w);
          Ldap.starttls := Ldap.starttls (Ldap.res w);
          Ldap.success := if flag then true else Ldap.success (Ldap.res w);
          Ldap.error := Ldap.error (Ldap.res w);
          Ldap.metadata := md;
          Ldap.timings := Ldap.timings (Ldap.res w) |};
     Ldap.conn := Ldap.conn w;
     Ldap.ticks := Ldap.ticks w;
     Ldap.trace := Ldap.trace w ++ evs |}.

Definition harvests (c : Ldap.M unit) (flag : bool) : Prop :=
  forall w, exists md evs,
    c w = (Ret tt, harvested w flag md evs) /\
    forallb is_search evs = true.

Definition with_bind (r : py_result bool) (e : Ldap.ldap_env) : Ldap.ldap_env :=
  {| Ldap.time_time := Ldap.time_time e;
     Ldap.create_connection := Ldap.create_connection e;
     Ldap.Server := Ldap.Server e; Ldap.Connection := Ldap.Connection e;
     Ldap.conn_open := Ldap.conn_open e;
     Ldap.conn_start_tls := Ldap.conn_start_tls e;
     Ldap.conn_last_error := Ldap.conn_last_error e;
     Ldap.conn_bind := r;
     Ldap.bind_result_text := Ldap.bind_result_text e;
     Ldap.server_info := Ldap.server_info e;
     Ldap.info_to_dict := Ldap.info_to_dict e;
     Ldap.schema_str := Ldap.schema_str e;
     Ldap.server_str := Ldap.server_str e;
     Ldap.search_root := Ldap.search_root e;
     Ldap.root_entries := Ldap.root_entries e;
     Ldap.root_result := Ldap.root_result e;
     Ldap.search_base := Ldap.search_base e;
     Ldap.conn_unbind := Ldap.conn_unbind e |}.

Definition with_unbind (r : py_result unit) (e : Ldap.ldap_env) : Ldap.ldap_env :=
  {| Ldap.time_time := Ldap.time_time e;
     Ldap.create_connection := Ldap.create_connection e;
     Ldap.Server := Ldap.Server e; Ldap.Connection := Ldap.Connection e;
     Ldap.conn_open := Ldap.conn_open e;
     Ldap.conn_start_tls := Ldap.conn_start_tls e;
     Ldap.conn_last_error := Ldap.conn_last_error e;
     Ldap.conn_bind := Ldap.conn_bind e;
     Ldap.bind_result_text := Ldap.bind_result_text e;
     Ldap.server_info := Ldap.server_info e;
     Ldap.info_to_dict := Ldap.info_to_dict e;
     Ldap.schema_str := Ldap.schema_str e;
     Ldap.server_str := Ldap.server_str e;
     Ldap.search_root := Ldap.search_root e;
     Ldap.root_entries := Ldap.root_entries e;
     Ldap.root_result := Ldap.root_result e;
     Ldap.search_base := Ldap.search_base e;
     Ldap.conn_unbind := r |}.

(** A string without any colon. *)
Definition no_colon (s : pystr) : bool :=
  forallb (fun c => negb (c =? Ldap.colon)) s.

(** The port [main] hands to the probe. *)
Definition chosen_port (args : Ldap.cli_args) (explicit_port : option Z) : Z :=
  match explicit_port with
  | Some p => p
  | None => if Ldap.arg_use_ldaps args then 636 else 389
  end.

(** A directory that is reachable and accepts the bind, with the server
    object, the open and the StartTLS upgrade behaving as given.  With
    [opened := Ret true] it is a directory behind a client library
    whose [open()] returns a true value, which is what line 68 waits
    for; the open of ldap3 returns [None], that is [Ret false]. *)
Definition directory (server : py_result unit) (opened upgraded : py_result bool)
           (last_error : pystr) : Ldap.ldap_env :=
  {| Ldap.time_time := fun n => Z.of_nat n;
     Ldap.create_connection := fun _ _ _ => Ret tt;
     Ldap.Server := fun _ _ _ _ => server;
     Ldap.Connection := Ret tt;
     Ldap.conn_open := opened;
     Ldap.conn_start_tls := upgraded;
     Ldap.conn_last_error := last_error;
     Ldap.conn_bind := Ret true;
     Ldap.bind_result_text := [];
     Ldap.server_info := Ret false;
     Ldap.info_to_dict := Ret Ldap.VNone;
     Ldap.schema_str := Ret [];
     Ldap.server_str := Ret [];
     Ldap.search_root := Ret false;
     Ldap.root_entries := [];
     Ldap.root_result := Ldap.VNone;
     Ldap.search_base := fun _ => Ret false;
     Ldap.conn_unbind := Ret tt |}.

(** The arguments of the SNMP tool at their defaults. *)
Definition public_args : Snmp.cli_args :=
  {| Snmp.arg_target := lit "192.0.2.1";
     Snmp.arg_port := 161;
     Snmp.arg_community := lit "public";
     Snmp.arg_timeout := 2 |}.

(** A command line that gives one port in the host and another with
    [--port]. *)
Definition port_in_host : Ldap.cli_args :=
  {| Ldap.arg_host := lit "ldap://ldap.example.com:1389";
     Ldap.arg_port := Some 389;
     Ldap.arg_use_ldaps := false;
     Ldap.arg_starttls := false;
     Ldap.arg_timeout := 5;
     Ldap.arg_json := true |}.


(* ================================================================== *)
(** ** Strings and dicts *)
(* ================================================================== *)

Lemma pystr_eqb_eq a b : pystr_eqb a b = true <-> a = b.
Proof.
  revert b; induction a as [|x a IH]; intros [|y b]; simpl;
    try (split; [discriminate | discriminate]); try tauto.
  rewrite andb_true_iff, Z.eqb_eq, IH.
  split; [intros [-> ->]; reflexivity | intros [= -> ->]; auto].
Qed.

Lemma pystr_eqb_refl a : pystr_eqb a a = true.
Proof. apply pystr_eqb_eq; reflexivity. Qed.

Lemma startswith_app p s : startswith (p ++ s) p = true.
Proof.
  induction p as [|c p IH]; simpl; [destruct s; reflexivity|].
  rewrite Z.eqb_refl, IH; reflexivity.
Qed.

Lemma contains_prefix p s : contains (p ++ s) p = true.
Proof.
  destruct p as [|c p]; [destruct s; reflexivity|].
  change (startswith ((c :: p) ++ s) (c :: p) || contains (p ++ s) (c :: p) = true).
  rewrite startswith_app; reflexivity.
Qed.

Section DictFacts.
Context {V : Type}.
Implicit Types (d : dict V) (k : pystr) (v : V).

Lemma dict_get_set d k v k' :
  dict_get (dict_set d k v) k' =
  if pystr_eqb k k' then Some v else dict_get d k'.
Proof.
  induction d as [|[k0 v0] d IH]; simpl.
  - reflexivity.
  - destruct (pystr_eqb k0 k) eqn:E0; simpl.
    + apply pystr_eqb_eq in E0; subst k0.
      destruct (pystr_eqb k k'); reflexivity.
    + rewrite IH. destruct (pystr_eqb k0 k') eqn:E1; [|reflexivity].
      apply pystr_eqb_eq in E1; subst k0.
      destruct (pystr_eqb k k') eqn:E2; [|reflexivity].
      apply pystr_eqb_eq in E2; subst k'.
      rewrite pystr_eqb_refl in E0; discriminate.
Qed.

Lemma dict_has_set d k v k' :
  dict_has (dict_set d k v) k' = pystr_eqb k k' || dict_has d k'.
Proof.
  unfold dict_has; rewrite dict_get_set.
  destruct (pystr_eqb k k'); reflexivity.
Qed.

Lemma dict_set_set d k v v' :
  dict_set (dict_set d k v) k v' = dict_set d k v'.
Proof.
  induction d as [|[k0 v0] d IH]; simpl.
  - rewrite pystr_eqb_refl; reflexivity.
  - destruct (pystr_eqb k0 k) eqn:E0; simpl; rewrite E0;
      [reflexivity | rewrite IH; reflexivity].
Qed.
End DictFacts.

(* ================================================================== *)
(** ** The packet built by raw_udp_check *)
(* ================================================================== *)

Lemma fromhex_suffix : Snmp.bytes_fromhex Snmp.suffix_hex = Ret wire_tail.
Proof. reflexivity. Qed.

Lemma len_app {A} (a b : list A) : Snmp.len (a ++ b) = Snmp.len a + Snmp.len b.
Proof. unfold Snmp.len; rewrite length_app; lia. Qed.

Lemma len_nonneg {A} (l : list A) : 0 <= Snmp.len l.
Proof. unfold Snmp.len; lia. Qed.

Lemma bytes_of_int_ok n : 0 <= n < 256 -> Snmp.bytes_of_int n = Ret [n].
Proof.
  intros H; unfold Snmp.bytes_of_int.
  destruct (Z.leb_spec 0 n); [|lia].
  destruct (Z.ltb_spec n 256); [reflexivity|lia].
Qed.

Lemma bytes_of_int_big n :
  256 <= n -> Snmp.bytes_of_int n = Raise Snmp.byte_out_of_range.
Proof.
  intros H; unfold Snmp.bytes_of_int.
  destruct (Z.ltb_spec n 256); [lia|].
  rewrite andb_false_r; reflexivity.
Qed.

(** The content of the outer SEQUENCE is 35 bytes longer than the
    community: 3 for the version, 2 for the community header and 30 for
    the tail. *)
Lemma build_payload_unfold community cb :
  Snmp.str_encode community = Ret cb ->
  Snmp.build_payload community =
  rbind (Snmp.bytes_of_int (Snmp.len cb)) (fun cl =>
  rbind (Snmp.bytes_of_int (Snmp.len cl + Snmp.len cb + 34)) (fun ll =>
  Ret ([0x30] ++ ll ++ [0x02; 0x01; 0x00; 0x04] ++ cl ++ cb ++ wire_tail))).
Proof.
  intros H; unfold Snmp.build_payload.
  rewrite H; cbn [rbind]. rewrite fromhex_suffix; cbn [rbind].
  destruct (Snmp.bytes_of_int (Snmp.len cb)) as [cl|e]; cbn [rbind]; [|reflexivity].
  replace (Snmp.len ((([2; 1; 0] ++ [4] ++ cl) ++ cb) ++ wire_tail))
    with (Snmp.len cl + Snmp.len cb + 34).
  2:{ rewrite !len_app. change (Snmp.len wire_tail) with 30.
      change (Snmp.len [2; 1; 0]) with 3. change (Snmp.len [4]) with 1. lia. }
  destruct (Snmp.bytes_of_int _); cbn [rbind]; [|reflexivity].
  rewrite <- !app_assoc; reflexivity.
Qed.

Lemma build_payload_fits community cb :
  Snmp.str_encode community = Ret cb ->
  Snmp.len cb <= 220 ->
  Snmp.build_payload community =
  Ret (wire_layout (Snmp.len cb + 35) (Snmp.len cb) cb).
Proof.
  intros H Hn. rewrite (build_payload_unfold _ _ H).
  pose proof (len_nonneg cb).
  rewrite bytes_of_int_ok by lia; cbn [rbind].
  change (Snmp.len [Snmp.len cb]) with 1.
  rewrite bytes_of_int_ok by lia; cbn [rbind].
  replace (1 + Snmp.len cb + 34) with (Snmp.len cb + 35) by lia.
  reflexivity.
Qed.

Lemma build_payload_overflow community cb :
  Snmp.str_encode community = Ret cb ->
  221 <= Snmp.len cb ->
  Snmp.build_payload community = Raise Snmp.byte_out_of_range.
Proof.
  intros H Hn. rewrite (build_payload_unfold _ _ H).
  destruct (Z.lt_ge_cases (Snmp.len cb) 256) as [Hs|Hb].
  - pose proof (len_nonneg cb).
    rewrite bytes_of_int_ok by lia; cbn [rbind].
    change (Snmp.len [Snmp.len cb]) with 1.
    rewrite bytes_of_int_big by lia; reflexivity.
  - rewrite bytes_of_int_big by lia; reflexivity.
Qed.

(** A community of ASCII characters encodes to itself, so its byte
    count is its character count. *)
Lemma str_encode_ascii community :
  Forall (fun c => c < 0x80) community ->
  Snmp.str_encode community = Ret community.
Proof.
  intros H. unfold Snmp.str_encode. generalize 0%nat.
  induction H as [|c s Hc _ IH]; intros pos; simpl; [reflexivity|].
  unfold Snmp.utf8_char. destruct (Z.ltb_spec c 128); [|lia].
  rewrite IH; reflexivity.
Qed.

Lemma encode_public : Snmp.str_encode (lit "public") = Ret (lit "public").
Proof. reflexivity. Qed.

(** Timeouts that [settimeout] accepts. *)
Lemma settimeout_accepts timeout :
  0 <= timeout <= 9223372036 -> Snmp.settimeout timeout = Ret tt.
Proof.
  intros H. unfold Snmp.settimeout.
  destruct (Z.ltb_spec timeout (-9223372036)); [lia|].
  destruct (Z.ltb_spec 9223372036 timeout); [lia|].
  destruct (Z.ltb_spec timeout 0); [lia|]. reflexivity.
Qed.

Lemma settimeout_negative timeout :
  -9223372036 <= timeout < 0 ->
  Snmp.settimeout timeout
  = Raise (Exn ValueError (lit "Timeout value out of range")).
Proof.
  intros H. unfold Snmp.settimeout.
  destruct (Z.ltb_spec timeout (-9223372036)); [lia|].
  destruct (Z.ltb_spec 9223372036 timeout); [lia|].
  destruct (Z.ltb_spec timeout 0); [|lia]. reflexivity.
Qed.

(** Once the packet is built, the socket created and the timeout
    accepted, the packet is what [sendto] gets. *)
Lemma raw_udp_check_sends sock target port community timeout payload :
  Snmp.build_payload community = Ret payload ->
  Snmp.socket_socket sock = Ret tt ->
  0 <= timeout <= 9223372036 ->
  Snmp.raw_udp_check sock target port community timeout =
  Snmp.after_exchange community
    (Snmp.sendto_recvfrom sock target port timeout payload).
Proof.
  intros Hb Hs Ht. unfold Snmp.raw_udp_check, Snmp.exchange.
  rewrite Hb, Hs, (settimeout_accepts _ Ht). reflexivity.
Qed.

(** An exception of line 84 or 85 leaves the function: the [try] starts
    at line 86. *)
Lemma raw_udp_check_no_socket sock target port community timeout payload e :
  Snmp.build_payload community = Ret payload ->
  Snmp.socket_socket sock = Raise e \/
  (Snmp.socket_socket sock = Ret tt /\ Snmp.settimeout timeout = Raise e) ->
  Snmp.raw_udp_check sock target port community timeout = Raise e.
Proof.
  intros Hb H. unfold Snmp.raw_udp_check, Snmp.exchange. rewrite Hb.
  destruct H as [Hs | [Hs Ht]]; rewrite Hs; [|cbn [rbind]; rewrite Ht];
    reflexivity.
Qed.

(** C1, as amended: the outer length byte is 3 + 2 + N + 30, the fixed
    tail being 30 bytes long (the header [A0 1C] and its 28 bytes of
    content), and the community length byte is N, for a community of N
    bytes with N < 128. *)
Theorem outer_length_byte community cb :
  Snmp.str_encode community = Ret cb ->
  Snmp.len cb < 128 ->
  exists payload,
    Snmp.build_payload community = Ret payload /\
    nth 1 payload 0 = 3 + 2 + Snmp.len cb + 30 /\
    nth 6 payload 0 = Snmp.len cb.
Proof.
  intros H Hn. eexists; split.
  - apply build_payload_fits; [exact H | lia].
  - unfold wire_layout; cbn [nth app]; split; lia.
Qed.

Lemma outer_length_byte_witness :
  exists payload,
    Snmp.build_payload (lit "public") = Ret payload /\
    nth 1 payload 0 = 3 + 2 + Snmp.len (lit "public") + 30 /\
    nth 6 payload 0 = Snmp.len (lit "public").
Proof.
  apply (outer_length_byte (lit "public") (lit "public")).
  - reflexivity.
  - vm_compute; reflexivity.
Defined.

(** C1 as stated, with a 28-byte tail, fails for the community "public":
    the outer length byte is 41, not 39. *)
Lemma outer_length_byte_28_refuted :
  ~ (forall community cb payload,
        Snmp.str_encode community = Ret cb ->
        Snmp.len cb < 128 ->
        Snmp.build_payload community = Ret payload ->
        nth 1 payload 0 = 3 + 2 + Snmp.len cb + 28 /\
        nth 6 payload 0 = Snmp.len cb).
Proof.
  intros H.
  destruct (H (lit "public") (lit "public")
              (wire_layout 41 6 (lit "public"))) as [H1 _];
    [reflexivity | vm_compute; reflexivity | reflexivity |].
  vm_compute in H1; discriminate.
Qed.

(** C5: for a community of fewer than 128 bytes the bytes handed to
    [sendto] are [30 LL 02 01 00 04 CL <community> <tail>], with CL the
    number of community bytes and LL the number of bytes after LL.
    That packet is what the function builds; once the socket is created
    and has accepted the timeout, it is what [sendto] gets; and when
    line 84 or 85 raises, the exception leaves the function and nothing
    is sent. *)
Theorem raw_packet_wire_layout community cb :
  Snmp.str_encode community = Ret cb ->
  Snmp.len cb < 128 ->
  exists ll cl,
    let payload :=
      [0x30; ll; 0x02; 0x01; 0x00; 0x04; cl] ++ cb
      ++ [ 0xA0; 0x1C; 0x02; 0x04; 0x0E; 0xB3; 0x76; 0xF4;
           0x02; 0x01; 0x00; 0x02; 0x01; 0x00;
           0x30; 0x0E; 0x30; 0x0C;
           0x06; 0x08; 0x2B; 0x06; 0x01; 0x02; 0x01; 0x01; 0x05; 0x00;
           0x05; 0x00 ] in
    cl = Snmp.len cb /\
    ll = Snmp.len (skipn 2 payload) /\
    Snmp.build_payload community = Ret payload /\
    (forall sock target port timeout,
        Snmp.socket_socket sock = Ret tt ->
        0 <= timeout <= 9223372036 ->
        Snmp.raw_udp_check sock target port community timeout =
        Snmp.after_exchange community
          (Snmp.sendto_recvfrom sock target port timeout payload)) /\
    (forall sock target port timeout e,
        Snmp.socket_socket sock = Raise e \/
        (Snmp.socket_socket sock = Ret tt /\
         Snmp.settimeout timeout = Raise e) ->
        Snmp.raw_udp_check sock target port community timeout = Raise e).
Proof.
  intros H Hn.
  exists (Snmp.len cb + 35), (Snmp.len cb); cbv zeta.
  assert (Hb : Snmp.build_payload community =
               Ret (wire_layout (Snmp.len cb + 35) (Snmp.len cb) cb))
    by (apply build_payload_fits; [exact H | lia]).
  repeat split.
  - cbn [skipn app]. change (?a :: ?b :: ?c :: ?d :: ?e :: cb ++ ?t)
      with ([a; b; c; d; e] ++ cb ++ t).
    rewrite !len_app. vm_compute (Snmp.len [_; _; _; _; _]).
    match goal with |- context [Snmp.len (?x :: ?t)] =>
      change (Snmp.len (x :: t)) with 30 end. lia.
  - exact Hb.
  - intros sock target port timeout Hs Ht.
    apply (raw_udp_check_sends _ _ _ _ _ _ Hb Hs Ht).
  - intros sock target port timeout e He.
    apply (raw_udp_check_no_socket _ _ _ _ _ _ _ Hb He).
Qed.

Lemma raw_packet_wire_layout_witness :
  exists ll cl,
    let payload :=
      [0x30; ll; 0x02; 0x01; 0x00; 0x04; cl] ++ lit "public"
      ++ [ 0xA0; 0x1C; 0x02; 0x04; 0x0E; 0xB3; 0x76; 0xF4;
           0x02; 0x01; 0x00; 0x02; 0x01; 0x00;
           0x30; 0x0E; 0x30; 0x0C;
           0x06; 0x08; 0x2B; 0x06; 0x01; 0x02; 0x01; 0x01; 0x05; 0x00;
           0x05; 0x00 ] in
    cl = Snmp.len (lit "public") /\
    ll = Snmp.len (skipn 2 payload) /\
    Snmp.build_payload (lit "public") = Ret payload /\
    (forall sock target port timeout,
        Snmp.socket_socket sock = Ret tt ->
        0 <= timeout <= 9223372036 ->
        Snmp.raw_udp_check sock target port (lit "public") timeout =
        Snmp.after_exchange (lit "public")
          (Snmp.sendto_recvfrom sock target port timeout payload)) /\
    (forall sock target port timeout e,
        Snmp.socket_socket sock = Raise e \/
        (Snmp.socket_socket sock = Ret tt /\
         Snmp.settimeout timeout = Raise e) ->
        Snmp.raw_udp_check sock target port (lit "public") timeout = Raise e).
Proof.
  apply (raw_packet_wire_layout (lit "public") (lit "public")).
  - reflexivity.
  - vm_compute; reflexivity.
Defined.

Lemma payload_ends_with_tail community payload :
  Snmp.build_payload community = Ret payload ->
  exists head, payload = head ++ wire_tail.
Proof.
  destruct (Snmp.str_encode community) as [cb|e] eqn:E.
  - rewrite (build_payload_unfold _ _ E).
    destruct (Snmp.bytes_of_int (Snmp.len cb)) as [cl|]; cbn [rbind]; [|discriminate].
    destruct (Snmp.bytes_of_int _) as [ll|]; cbn [rbind]; [|discriminate].
    intros [= <-].
    exists ([0x30] ++ ll ++ [0x02; 0x01; 0x00; 0x04] ++ cl ++ cb).
    rewrite <- !app_assoc; reflexivity.
  - unfold Snmp.build_payload; rewrite E; discriminate.
Qed.

(** C4, as amended: whatever the community, the packet ends with the
    fixed tail, and the tail is a GetRequest with request-id 0x0EB376F4,
    error status and index 0, and one variable binding: the OID
    1.3.6.1.2.1.1.5.0 with a NULL value.  In the table of the library
    probe that OID is sysName, not sysDescr. *)
Theorem pdu_tail_requests_sysName community payload :
  Snmp.build_payload community = Ret payload ->
  exists head tail,
    Snmp.bytes_fromhex Snmp.suffix_hex = Ret tail /\
    payload = head ++ tail /\
    Ber.decode_pdu tail =
      Some {| Ber.request_id := 0x0EB376F4;
              Ber.error_status := 0;
              Ber.error_index := 0;
              Ber.varbinds := [([1; 3; 6; 1; 2; 1; 1; 5; 0], Ber.Null)] |} /\
    dict_get Snmp.oids (lit "sysName")
      = Some (Ber.dotted [1; 3; 6; 1; 2; 1; 1; 5; 0]) /\
    dict_get Snmp.oids (lit "sysDescr")
      = Some (Ber.dotted [1; 3; 6; 1; 2; 1; 1; 1; 0]).
Proof.
  intros H. destruct (payload_ends_with_tail _ _ H) as [head ->].
  exists head, wire_tail. repeat split; vm_compute; reflexivity.
Qed.

Lemma pdu_tail_requests_sysName_witness :
  exists head tail,
    Snmp.bytes_fromhex Snmp.suffix_hex = Ret tail /\
    wire_layout 41 6 (lit "public") = head ++ tail /\
    Ber.decode_pdu tail =
      Some {| Ber.request_id := 0x0EB376F4;
              Ber.error_status := 0;
              Ber.error_index := 0;
              Ber.varbinds := [([1; 3; 6; 1; 2; 1; 1; 5; 0], Ber.Null)] |} /\
    dict_get Snmp.oids (lit "sysName")
      = Some (Ber.dotted [1; 3; 6; 1; 2; 1; 1; 5; 0]) /\
    dict_get Snmp.oids (lit "sysDescr")
      = Some (Ber.dotted [1; 3; 6; 1; 2; 1; 1; 1; 0]).
Proof.
  apply (pdu_tail_requests_sysName (lit "public")).
  reflexivity.
Defined.

(** C4 as stated fails: the variable binding of the tail does not carry
    the sysDescr OID 1.3.6.1.2.1.1.1.0. *)
Lemma pdu_tail_not_sysDescr :
  ~ (exists tail request,
        Snmp.bytes_fromhex Snmp.suffix_hex = Ret tail /\
        Ber.decode_pdu tail = Some request /\
        Ber.varbinds request = [([1; 3; 6; 1; 2; 1; 1; 1; 0], Ber.Null)]).
Proof.
  intros (tail & request & Ht & Hd & Hv).
  rewrite fromhex_suffix in Ht. injection Ht as <-.
  vm_compute in Hd. injection Hd as <-.
  vm_compute in Hv. discriminate.
Qed.

(** C9, as amended.  A community of N bytes with 128 <= N <= 220 is
    encoded without any signal: the packet is built, with community
    length byte N and outer length byte N + 35, both above 127, and once
    the socket is created and has accepted the timeout it is handed to
    [sendto]; when line 84 or 85 raises, that exception leaves the
    function.  From N = 221 on, [bytes([...])] raises ValueError before
    a socket is created. *)
Theorem long_community_packet community cb :
  Snmp.str_encode community = Ret cb ->
  128 <= Snmp.len cb ->
  (Snmp.len cb <= 220 ->
   let payload := wire_layout (Snmp.len cb + 35) (Snmp.len cb) cb in
   Snmp.build_payload community = Ret payload /\
   128 <= nth 6 payload 0 < 256 /\
   128 <= nth 1 payload 0 < 256 /\
   (forall sock target port timeout,
       Snmp.socket_socket sock = Ret tt ->
       0 <= timeout <= 9223372036 ->
       Snmp.raw_udp_check sock target port community timeout =
       Snmp.after_exchange community
         (Snmp.sendto_recvfrom sock target port timeout payload)) /\
   (forall sock target port timeout e,
       Snmp.socket_socket sock = Raise e \/
       (Snmp.socket_socket sock = Ret tt /\
        Snmp.settimeout timeout = Raise e) ->
       Snmp.raw_udp_check sock target port community timeout = Raise e)) /\
  (221 <= Snmp.len cb ->
   Snmp.build_payload community = Raise Snmp.byte_out_of_range /\
   forall sock target port timeout,
     Snmp.raw_udp_check sock target port community timeout =
     Raise Snmp.byte_out_of_range).
Proof.
  intros H Hn; split; intros Hm.
  - cbv zeta. pose proof (build_payload_fits _ _ H Hm) as Hb.
    split; [exact Hb|].
    unfold wire_layout; cbn [nth app].
    repeat split; try lia.
    + intros sock target port timeout Hs Ht.
      apply (raw_udp_check_sends _ _ _ _ _ _ Hb Hs Ht).
    + intros sock target port timeout e He.
      apply (raw_udp_check_no_socket _ _ _ _ _ _ _ Hb He).
  - pose proof (build_payload_overflow _ _ H Hm) as Hb.
    split; [exact Hb|].
    intros; unfold Snmp.raw_udp_check; rewrite Hb; reflexivity.
Qed.

Lemma encode_repeat_a n : Snmp.str_encode (repeat 97 n) = Ret (repeat 97 n).
Proof.
  apply str_encode_ascii. apply Forall_forall.
  intros c Hc. apply repeat_spec in Hc. subst c. reflexivity.
Qed.

Lemma len_repeat {A} (a : A) n : Snmp.len (repeat a n) = Z.of_nat n.
Proof. unfold Snmp.len; rewrite repeat_length; reflexivity. Qed.

Lemma long_community_packet_witness :
  (Snmp.len (repeat 97 128) <= 220 ->
   let payload :=
     wire_layout (Snmp.len (repeat 97 128) + 35) (Snmp.len (repeat 97 128))
                 (repeat 97 128) in
   Snmp.build_payload (repeat 97 128) = Ret payload /\
   128 <= nth 6 payload 0 < 256 /\
   128 <= nth 1 payload 0 < 256 /\
   (forall sock target port timeout,
       Snmp.socket_socket sock = Ret tt ->
       0 <= timeout <= 9223372036 ->
       Snmp.raw_udp_check sock target port (repeat 97 128) timeout =
       Snmp.after_exchange (repeat 97 128)
         (Snmp.sendto_recvfrom sock target port timeout payload)) /\
   (forall sock target port timeout e,
       Snmp.socket_socket sock = Raise e \/
       (Snmp.socket_socket sock = Ret tt /\
        Snmp.settimeout timeout = Raise e) ->
       Snmp.raw_udp_check sock target port (repeat 97 128) timeout
       = Raise e)) /\
  (221 <= Snmp.len (repeat 97 128) ->
   Snmp.build_payload (repeat 97 128) = Raise Snmp.byte_out_of_range /\
   forall sock target port timeout,
     Snmp.raw_udp_check sock target port (repeat 97 128) timeout =
     Raise Snmp.byte_out_of_range).
Proof.
  apply (long_community_packet (repeat 97 128) (repeat 97 128)).
  - apply encode_repeat_a.
  - rewrite len_repeat; lia.
Defined.

(** C9 as stated fails for a community of 128 letters: a packet is
    built, no exception is raised, and the packet is not a BER message
    (its length bytes 0x80 and 0xA3 are not short-form lengths). *)
Lemma long_community_not_signalled :
  ~ (forall community cb payload,
        Snmp.str_encode community = Ret cb ->
        128 <= Snmp.len cb ->
        Snmp.build_payload community = Ret payload ->
        Ber.decode_message payload <> None).
Proof.
  intros H.
  apply (H (repeat 97 128) (repeat 97 128)
           (wire_layout 163 128 (repeat 97 128))).
  - apply encode_repeat_a.
  - rewrite len_repeat; lia.
  - vm_compute; reflexivity.
  - vm_compute; reflexivity.
Qed.

(* ================================================================== *)
(** ** Reply handling in raw_udp_check *)
(* ================================================================== *)

Lemma span_class_length s :
  (List.length (fst (Snmp.span_class s))
   + List.length (snd (Snmp.span_class s)) = List.length s)%nat.
Proof.
  induction s as [|c s IH]; simpl; [reflexivity|].
  destruct (Snmp.in_class c); simpl; [|reflexivity].
  destruct (Snmp.span_class s); simpl in *; lia.
Qed.

(** The fuel given by [re_findall] is enough: more of it changes
    nothing. *)
Lemma findall_from_fuel f1 f2 s :
  (List.length s <= f1)%nat -> (List.length s <= f2)%nat ->
  Snmp.findall_from f1 s = Snmp.findall_from f2 s.
Proof.
  revert f2 s; induction f1 as [|f1 IH]; intros f2 s H1 H2.
  - destruct s; [|simpl in H1; lia]. destruct f2; reflexivity.
  - destruct f2 as [|f2].
    + destruct s; [reflexivity | simpl in H2; lia].
    + destruct s as [|c s]; [reflexivity|].
      cbn [Snmp.findall_from].
      pose proof (span_class_length (c :: s)) as HL.
      destruct (Snmp.span_class (c :: s)) as [m r]; cbn [fst snd] in HL.
      simpl in H1, H2. simpl List.length in HL.
      destruct (Z.leb_spec 4 (Snmp.len m)) as [Hm|Hm].
      * unfold Snmp.len in Hm. f_equal. apply IH; lia.
      * apply IH; lia.
Qed.

Lemma join_items_dots data idx :
  forallb (fun ch => negb (printable_byte ch)) data = true ->
  Snmp.join_items idx (map Snmp.printable_item data)
  = Ret (repeat 46 (List.length data)).
Proof.
  revert idx; induction data as [|ch data IH]; intros idx H; [reflexivity|].
  simpl in H. apply andb_true_iff in H as [Hc Hd].
  cbn [map Snmp.join_items]. unfold Snmp.printable_item at 1.
  unfold printable_byte in Hc. destruct ((32 <=? ch) && (ch <? 127)); [discriminate|].
  rewrite (IH _ Hd). reflexivity.
Qed.

Lemma join_items_raises data idx :
  existsb printable_byte data = true ->
  exists i, Snmp.join_items idx (map Snmp.printable_item data)
            = Raise (Snmp.join_type_error i).
Proof.
  revert idx; induction data as [|ch data IH]; intros idx H; [discriminate|].
  cbn [map Snmp.join_items]. unfold Snmp.printable_item at 1.
  simpl in H. unfold printable_byte in H at 1.
  destruct ((32 <=? ch) && (ch <? 127)).
  - exists idx; reflexivity.
  - destruct (IH (S idx) H) as [i Hi]. exists i. rewrite Hi; reflexivity.
Qed.

(** Whatever the community, a reply that holds one byte in 32..126
    makes line 96 raise: [str.join] meets an [int]. *)
Lemma classify_reply_raises community data :
  existsb printable_byte data = true ->
  exists i, Snmp.classify_reply community data
            = Raise (Snmp.join_type_error i).
Proof.
  intros H. destruct (join_items_raises data 0 H) as [i Hi].
  exists i. unfold Snmp.classify_reply. rewrite Hi. reflexivity.
Qed.

Lemma span_class_dots n :
  Snmp.span_class (repeat 46 n) = (repeat 46 n, []).
Proof.
  induction n as [|n IH]; [reflexivity|].
  cbn [repeat Snmp.span_class]. change (Snmp.in_class 46) with true.
  cbv iota. rewrite IH. reflexivity.
Qed.

Lemma findall_from_step f c s :
  Snmp.findall_from (S f) (c :: s) =
  let (m, r) := Snmp.span_class (c :: s) in
  if 4 <=? Snmp.len m then m :: Snmp.findall_from f r
  else Snmp.findall_from f s.
Proof. reflexivity. Qed.

Lemma findall_dots n :
  Snmp.re_findall (repeat 46 n)
  = if (4 <=? n)%nat then [repeat 46 n] else [].
Proof.
  unfold Snmp.re_findall. rewrite repeat_length.
  destruct n as [|[|[|[|n]]]]; try reflexivity.
  set (k := S (S (S n))).
  change ((4 <=? S k)%nat) with true. cbv iota.
  change (repeat 46 (S k)) with (46 :: repeat 46 k) at 1.
  rewrite findall_from_step.
  change (46 :: repeat 46 k) with (repeat 46 (S k)).
  rewrite span_class_dots, len_repeat.
  destruct (Z.leb_spec 4 (Z.of_nat (S k))); [|unfold k in *; lia].
  destruct k; reflexivity.
Qed.

(** On a reply without any byte in 32..126 the function does classify:
    community present, else four bytes or more, else neither.  The
    projection is then a row of dots, and any four of them count as
    printable content. *)
Lemma classify_reply_unprintable community cb data :
  Snmp.str_encode community = Ret cb ->
  forallb (fun ch => negb (printable_byte ch)) data = true ->
  let dots := repeat 46 (List.length data) in
  Snmp.classify_reply community data =
  Ret (if contains data cb then
         (true, lit "response contains community '" ++ community
                ++ lit "'. Printable snippet: " ++ dots)
       else if (4 <=? List.length data)%nat then
         (true, lit "response received (no community string visible): " ++ dots)
       else
         (false, lit "received " ++ str_of_nat (List.length data)
                 ++ lit " bytes but no printable content")).
Proof.
  intros He Hd dots. unfold Snmp.classify_reply.
  rewrite (join_items_dots data 0 Hd). cbn [rbind]. rewrite He. cbn [rbind].
  rewrite findall_dots. fold dots.
  assert (Hs : (if (4 <=? List.length data)%nat then dots
                else firstn 200 dots) = dots).
  { destruct (Nat.leb_spec 4 (List.length data)); [reflexivity|].
    apply firstn_all2. unfold dots. rewrite repeat_length. lia. }
  destruct (4 <=? List.length data)%nat; rewrite ?Hs;
    destruct (contains data cb); reflexivity.
Qed.

(** C6 fails on the code: for the community "public" and an agent's
    reply that echoes it, [raw_udp_check] returns no classification at
    all; line 96 raises TypeError at the first byte, the SEQUENCE tag
    0x30, which is the character '0'. *)
Theorem echoed_community_raises :
  Snmp.raw_udp_check (replying sample_reply) (lit "192.0.2.1") 161
                     (lit "public") 2
  = Raise (Snmp.join_type_error 0).
Proof. vm_compute; reflexivity. Qed.

(* ================================================================== *)
(** ** The library-mediated probe *)
(* ================================================================== *)

Lemma last_cons {A} (a d : A) l : last (a :: l) d = last l a.
Proof.
  revert a d; induction l as [|b l IH]; intros a d; [reflexivity|].
  change (last (a :: b :: l) d) with (last (b :: l) d).
  rewrite (IH b d), (IH b a). reflexivity.
Qed.

Lemma store_varbinds_last name vbs st :
  Snmp.store_varbinds name vbs st =
  match vbs with
  | [] => st
  | vb :: vbs' =>
      {| Snmp.results := dict_set (Snmp.results st) name (snd (last vbs' vb));
         Snmp.success := true;
         Snmp.requested := Snmp.requested st |}
  end.
Proof.
  unfold Snmp.store_varbinds.
  revert st; induction vbs as [|vb vbs IH]; intros st; [reflexivity|].
  cbn [fold_left]. rewrite IH.
  destruct vbs as [|vb' vbs]; [reflexivity|].
  cbn [Snmp.results Snmp.requested]. rewrite dict_set_set, last_cons.
  reflexivity.
Qed.

Lemma enum_step_value getCmd st name oid :
  Snmp.enum_step getCmd st (name, oid) =
  {| Snmp.results :=
       match returned_value (getCmd oid) with
       | Some v => dict_set (Snmp.results st) name v
       | None => Snmp.results st
       end;
     Snmp.success :=
       Snmp.success st || is_some (returned_value (getCmd oid));
     Snmp.requested := Snmp.requested st ++ [oid] |}.
Proof.
  unfold Snmp.enum_step, returned_value.
  destruct (getCmd oid) as [e|[ei|] es idx vbs]; cbn [is_some];
    rewrite ?orb_false_r; try reflexivity.
  destruct (es =? 0).
  - rewrite store_varbinds_last. destruct vbs; cbn [is_some];
      rewrite ?orb_false_r, ?orb_true_r; reflexivity.
  - destruct vbs; cbn [is_some]; rewrite orb_false_r; reflexivity.
Qed.

Ltac each_value getCmd :=
  repeat match goal with
         | |- context [returned_value (getCmd ?oid)] =>
             destruct (returned_value (getCmd oid))
         end.

Lemma enum_loop_value getCmd :
  Snmp.enum_loop getCmd =
  {| Snmp.results := flat_map (collected_from getCmd) Snmp.oids;
     Snmp.success :=
       existsb (fun e => is_some (returned_value (getCmd (snd e)))) Snmp.oids;
     Snmp.requested := map snd Snmp.oids |}.
Proof.
  unfold Snmp.enum_loop, Snmp.oids. cbn [fold_left].
  rewrite !enum_step_value.
  cbn [Snmp.results Snmp.success Snmp.requested Snmp.enum_init
       flat_map existsb map snd fst app].
  unfold collected_from; cbn [fst snd].
  each_value getCmd; reflexivity.
Qed.

(** Joining with a separator, seen from the separator: each part comes
    after one. *)
Lemma str_join_each sep p ps :
  sep ++ str_join sep (p :: ps) = flat_map (fun x => sep ++ x) (p :: ps).
Proof.
  revert p; induction ps as [|q ps IH]; intros p.
  - cbn [str_join flat_map]. rewrite app_nil_r. reflexivity.
  - change (str_join sep (p :: q :: ps)) with (p ++ sep ++ str_join sep (q :: ps)).
    rewrite IH. change (flat_map (fun x => sep ++ x) (p :: q :: ps))
      with ((sep ++ p) ++ flat_map (fun x => sep ++ x) (q :: ps)).
    rewrite <- app_assoc. reflexivity.
Qed.

(** The listing behind its heading: a newline and [name: value] for
    every entry. *)
Lemma format_results_lines (d : dict pystr) :
  d <> [] ->
  [10] ++ Snmp.format_results d
  = flat_map (fun kv => [10] ++ fst kv ++ lit ": " ++ snd kv) d.
Proof.
  destruct d as [|kv kvs]; [contradiction|]. intros _.
  unfold Snmp.format_results. cbn [map]. rewrite str_join_each.
  cbn [flat_map]. f_equal.
  induction kvs as [|x l IH]; [reflexivity|].
  cbn [map flat_map]. rewrite IH. reflexivity.
Qed.

Lemma flat_map_step {A B} (f : A -> list B) x l :
  flat_map f (x :: l) = f x ++ flat_map f l.
Proof. reflexivity. Qed.

Lemma collected_lines getCmd (l : list (pystr * pystr)) :
  flat_map (fun kv => [10] ++ fst kv ++ lit ": " ++ snd kv)
           (flat_map (collected_from getCmd) l)
  = flat_map (fun entry =>
                match returned_value (getCmd (snd entry)) with
                | Some v => [10] ++ fst entry ++ lit ": " ++ v
                | None => []
                end) l.
Proof.
  induction l as [|e l IH]; [reflexivity|].
  rewrite !flat_map_step, flat_map_app.
  f_equal; [|exact IH]. unfold collected_from, pystr in *.
  destruct (returned_value (getCmd (snd e))); [|reflexivity].
  rewrite flat_map_step. cbn [flat_map fst snd]. apply app_nil_r.
Qed.

(** When some OID returned a value, the collected mapping is not empty. *)
Lemma collected_nonempty getCmd (l : list (pystr * pystr)) :
  existsb (fun e => is_some (returned_value (getCmd (snd e)))) l = true ->
  flat_map (collected_from getCmd) l <> [].
Proof.
  induction l as [|e l IH]; [discriminate|].
  cbn [existsb flat_map]. unfold collected_from at 1.
  destruct (returned_value (getCmd (snd e))); [discriminate|].
  cbn [is_some orb app]. exact IH.
Qed.

(** C8, as amended: the six OIDs of the table are each requested once,
    in order, whatever the replies; an OID whose reply is an exception,
    an error indication or an error status leaves no entry; the
    collected mapping holds exactly the names whose OID returned a
    value, with that value; the flag is true exactly when there is one.
    On success the detail is the heading line "SNMPv1 enumeration
    succeeded:" and after it, each behind a newline, one line
    [name: value] for every entry of the mapping in table order;
    otherwise it is the fixed message. *)
Theorem pysnmp_enum_collects
        (lib : Snmp.pysnmp_oracle) (target : pystr) (port : Z)
        (community : pystr) (timeout : Z) :
  let getCmd := lib target port community timeout in
  let st := Snmp.enum_loop getCmd in
  let value_of := fun entry : pystr * pystr =>
                    returned_value (getCmd (snd entry)) in
  Snmp.requested st = map snd Snmp.oids /\
  List.length Snmp.oids = 6%nat /\
  NoDup (map snd Snmp.oids) /\
  (forall name oid e,
      In (name, oid) Snmp.oids -> getCmd oid = Snmp.GetRaised e ->
      dict_get (Snmp.results st) name = None) /\
  (forall name oid indication es idx vbs,
      In (name, oid) Snmp.oids ->
      getCmd oid = Snmp.GetReply (Some indication) es idx vbs ->
      dict_get (Snmp.results st) name = None) /\
  (forall name oid indication es idx vbs,
      In (name, oid) Snmp.oids -> es <> 0 ->
      getCmd oid = Snmp.GetReply indication es idx vbs ->
      dict_get (Snmp.results st) name = None) /\
  (forall entry, In entry Snmp.oids ->
                 dict_get (Snmp.results st) (fst entry) = value_of entry) /\
  Snmp.results st = flat_map (collected_from getCmd) Snmp.oids /\
  (Snmp.success st = true <->
   exists entry, In entry Snmp.oids /\ value_of entry <> None) /\
  Snmp.try_pysnmp_enum (Some lib) target port community timeout =
    if Snmp.success st then
      (Some true,
       lit "SNMPv1 enumeration succeeded:"
       ++ flat_map (fun entry =>
                      match value_of entry with
                      | Some v => [10] ++ fst entry ++ lit ": " ++ v
                      | None => []
                      end) Snmp.oids)
    else (Some false, lit "no valid responses for standard OIDs").
Proof.
  intros getCmd st value_of.
  assert (Hget : forall entry, In entry Snmp.oids ->
            dict_get (Snmp.results st) (fst entry) = value_of entry).
  { intros entry Hin. subst st value_of. rewrite enum_loop_value.
    cbn [Snmp.results]. unfold Snmp.oids in *. cbn [flat_map].
    unfold collected_from. cbn [fst snd].
    cbn [In] in Hin.
    repeat (destruct Hin as [<-|Hin]; [cbn [fst snd];
      each_value getCmd; reflexivity|]).
    destruct Hin. }
  repeat split.
  - subst st. rewrite enum_loop_value. reflexivity.
  - repeat constructor; cbn [In]; intros H;
      repeat (destruct H as [H|H]; [discriminate H|]); exact H.
  - intros name oid e Hin Hr.
    pose proof (Hget (name, oid) Hin) as Hg. cbn [fst] in Hg. rewrite Hg.
    subst value_of; cbn [snd]. rewrite Hr. reflexivity.
  - intros name oid indication es idx vbs Hin Hr.
    pose proof (Hget (name, oid) Hin) as Hg. cbn [fst] in Hg. rewrite Hg.
    subst value_of; cbn [snd]. rewrite Hr. reflexivity.
  - intros name oid indication es idx vbs Hin Hes Hr.
    pose proof (Hget (name, oid) Hin) as Hg. cbn [fst] in Hg. rewrite Hg.
    subst value_of; cbn [snd]. rewrite Hr. unfold returned_value.
    destruct indication; [reflexivity|]. destruct vbs; [reflexivity|].
    destruct (Z.eqb_spec es 0); [contradiction | reflexivity].
  - exact Hget.
  - subst st. rewrite enum_loop_value. reflexivity.
  - subst st. rewrite enum_loop_value. cbn [Snmp.success].
    rewrite existsb_exists. intros (entry & Hin & Hv).
    exists entry. split; [exact Hin|]. subst value_of; cbv beta.
    destruct (returned_value _); [discriminate | discriminate Hv].
  - subst st. rewrite enum_loop_value. cbn [Snmp.success].
    rewrite existsb_exists. intros (entry & Hin & Hv).
    exists entry. split; [exact Hin|]. subst value_of; cbv beta in Hv.
    destruct (returned_value _); [reflexivity | contradiction].
  - unfold Snmp.try_pysnmp_enum. fold getCmd. fold st.
    subst st. rewrite enum_loop_value. cbn [Snmp.success Snmp.results].
    destruct (existsb _ Snmp.oids) eqn:Es; [|reflexivity].
    f_equal. f_equal.
    rewrite (format_results_lines _ (collected_nonempty getCmd Snmp.oids Es)).
    apply collected_lines.
Qed.

(** C8 as stated fails in its last part: on success the detail is not
    the newline-joined listing alone; a heading line comes first.  For
    an agent that answers for sysName only, the listing is the one line
    "sysName: router1" and the detail has two lines. *)
Lemma detail_starts_with_heading :
  ~ (forall lib target port community timeout,
        let st := Snmp.enum_loop (lib target port community timeout) in
        Snmp.success st = true ->
        snd (Snmp.try_pysnmp_enum (Some lib) target port community timeout)
        = str_join [10]
            (map (fun kv => fst kv ++ lit ": " ++ snd kv) (Snmp.results st))).
Proof.
  intros H.
  specialize (H one_name_agent (lit "192.0.2.1") 161 (lit "public") 2).
  cbv zeta in H. vm_compute in H.
  specialize (H eq_refl). discriminate H.
Qed.

(* ================================================================== *)
(** ** try_anonymous_bind *)
(* ================================================================== *)

Lemma runs_seq c1 c2 R1 R2 :
  runs c1 R1 -> runs c2 R2 ->
  runs (Ldap.mbind c1 (fun _ => c2))
       (fun w w'' => exists w', R1 w w' /\ R2 w' w'').
Proof.
  intros H1 H2 w. destruct (H1 w) as (w' & E1 & HR1).
  destruct (H2 w') as (w'' & E2 & HR2).
  exists w''. unfold Ldap.mbind. rewrite E1, E2. eauto.
Qed.

Lemma runs_weaken c (R R' : Ldap.world -> Ldap.world -> Prop) :
  runs c R -> (forall w w', R w w' -> R' w w') -> runs c R'.
Proof.
  intros H HR w. destruct (H w) as (w' & E & Hw). eauto.
Qed.

(** Destructs what the oracle decides, innermost first. *)
Ltac oracle_case :=
  match goal with
  | |- context [match ?x with _ => _ end] =>
      lazymatch x with
      | context [match _ with _ => _ end] => fail
      | _ => destruct x eqn:?
      end
  end.

(** An [except] clause whose handler returns never raises. *)
Lemma try_except_total (c : Ldap.M unit) (h : exn -> Ldap.M unit) :
  (forall e, runs (h e) (fun _ _ => True)) ->
  runs (Ldap.try_except c h) (fun _ _ => True).
Proof.
  intros Hh w. unfold Ldap.try_except.
  destruct (c w) as [[[]|e] w'].
  - exists w'; auto.
  - apply Hh.
Qed.

Lemma set_error_runs msg : runs (Ldap.set_error msg) (fun _ _ => True).
Proof. intros w; eexists; split; [reflexivity | exact I]. Qed.

(** The [finally] clause never raises and leaves [total_s] behind; it
    touches neither [success] nor [metadata]. *)
Lemma cleanup_total env t0 :
  runs (Ldap.cleanup env t0)
       (fun w w' =>
          dict_has (Ldap.timings (Ldap.res w')) (lit "total_s") = true /\
          Ldap.success (Ldap.res w') = Ldap.success (Ldap.res w) /\
          Ldap.metadata (Ldap.res w') = Ldap.metadata (Ldap.res w) /\
          Ldap.trace w' =
            Ldap.trace w ++ (if Ldap.conn w then [Ldap.EvUnbind] else [])).
Proof.
  intros w.
  unfold Ldap.cleanup, Ldap.mbind, Ldap.get_conn, Ldap.try_except, Ldap.call,
    Ldap.ret, Ldap.now, Ldap.set_timing, Ldap.update.
  destruct (Ldap.conn w); [destruct (Ldap.conn_unbind env) as [[]|e]|];
    (eexists; split; [reflexivity|]);
    cbn [Ldap.res Ldap.timings Ldap.success Ldap.metadata Ldap.trace];
    rewrite dict_has_set, ?app_nil_r; repeat split; reflexivity.
Qed.

Lemma finally_total (c : Ldap.M unit) (h : exn -> Ldap.M unit) env t0 :
  (forall e, runs (h e) (fun _ _ => True)) ->
  runs (Ldap.try_finally (Ldap.try_except c h) (Ldap.cleanup env t0))
       (fun _ w' =>
          dict_has (Ldap.timings (Ldap.res w')) (lit "total_s") = true).
Proof.
  intros Hh w. unfold Ldap.try_finally.
  destruct (try_except_total c h Hh w) as (w1 & E1 & _). rewrite E1.
  destruct (cleanup_total env t0 w1) as (w2 & E2 & H & _). rewrite E2.
  exists w2; auto.
Qed.

(** C7: when the TCP connection attempt raises, the probe returns a
    result with [success] false and an error that starts with "TCP
    connection failed"; [timings] holds [total_s] only, so no [bind_s];
    and the connection attempt is the only call made: no server object,
    no open, no bind. *)
Theorem tcp_failure_stops_probe env h p ul st t e :
  Ldap.create_connection env h p t = Raise e ->
  exists r msg,
    Ldap.try_anonymous_bind env h p ul st t
      = (Ret r, [Ldap.EvTcpConnect h p t]) /\
    Ldap.success r = false /\
    Ldap.error r = Some msg /\
    msg = lit "TCP connection failed: " ++ emsg e /\
    contains msg (lit "TCP connection failed") = true /\
    dict_has (Ldap.timings r) (lit "bind_s") = false /\
    dict_keys (Ldap.timings r) = [lit "total_s"] /\
    Ldap.metadata r = [].
Proof.
  intros H.
  unfold Ldap.try_anonymous_bind, Ldap.try_anonymous_bind_from, Ldap.probe_body,
    Ldap.mbind, Ldap.attempt, Ldap.tcp_gate, Ldap.mbind, Ldap.now, Ldap.call.
  cbn [Ldap.ticks Ldap.trace Ldap.res Ldap.conn app]. rewrite H.
  do 2 eexists. split; [reflexivity|].
  cbn [Ldap.success Ldap.error Ldap.timings Ldap.metadata Ldap.initial_result].
  repeat split.
Qed.

Lemma tcp_failure_stops_probe_witness :
  exists r msg,
    Ldap.try_anonymous_bind
      (Ldap.with_tcp (Raise (Exn OSError (lit "Connection refused")))
                     Ldap.open_directory)
      (lit "ldap.example.com") 389 false false 5
      = (Ret r, [Ldap.EvTcpConnect (lit "ldap.example.com") 389 5]) /\
    Ldap.success r = false /\
    Ldap.error r = Some msg /\
    msg = lit "TCP connection failed: "
          ++ emsg (Exn OSError (lit "Connection refused")) /\
    contains msg (lit "TCP connection failed") = true /\
    dict_has (Ldap.timings r) (lit "bind_s") = false /\
    dict_keys (Ldap.timings r) = [lit "total_s"] /\
    Ldap.metadata r = [].
Proof.
  apply (tcp_failure_stops_probe
           (Ldap.with_tcp (Raise (Exn OSError (lit "Connection refused")))
                          Ldap.open_directory)).
  reflexivity.
Defined.

(** C10: the probe returns a result from every world, and [total_s] is
    among its timings, whichever way it leaves: TCP failure, failing
    server construction, exception in the LDAP operations, refused bind
    or successful bind. *)
Theorem total_s_always_recorded env h p ul st t :
  exists r tr,
    Ldap.try_anonymous_bind env h p ul st t = (Ret r, tr) /\
    dict_has (Ldap.timings r) (lit "total_s") = true.
Proof.
  unfold Ldap.try_anonymous_bind, Ldap.try_anonymous_bind_from, Ldap.probe_body.
  set (ops := Ldap.ldap_ops _ _ _). clearbody ops.
  unfold Ldap.mbind, Ldap.attempt, Ldap.tcp_gate, Ldap.mbind, Ldap.now, Ldap.call,
    Ldap.set_timing, Ldap.update.
  cbn [Ldap.ticks Ldap.trace Ldap.res Ldap.conn app].
  destruct (Ldap.create_connection env h p t) as [[]|e].
  - destruct (Ldap.Server env h p ul t) as [[]|e].
    + match goal with
      | |- context [Ldap.try_finally (Ldap.try_except ?c ?hd) ?f ?w] =>
          destruct (finally_total c hd env (Ldap.time_time env 0)
                      (fun e => set_error_runs _) w) as (w' & E & Hw)
      end.
      rewrite E. exists (Ldap.res w'), (Ldap.trace w'). auto.
    + do 2 eexists; split; [reflexivity|].
      cbn [Ldap.timings Ldap.res]. rewrite dict_has_set. reflexivity.
  - do 2 eexists; split; [reflexivity|]. reflexivity.
Qed.

Ltac run_step :=
  unfold Ldap.try_except, Ldap.mbind, Ldap.lift, Ldap.ret, Ldap.raise,
    Ldap.call, Ldap.get_metadata, Ldap.set_metadata, Ldap.set_success,
    Ldap.update;
  repeat (cbv beta iota; cbn [Ldap.res Ldap.conn Ldap.ticks Ldap.trace
                              Ldap.metadata Ldap.success];
          oracle_case).

Ltac frame_done :=
  eexists; split; [reflexivity|];
  unfold harvest_frame;
  cbn [Ldap.res Ldap.conn Ldap.ticks Ldap.trace Ldap.metadata Ldap.success];
  repeat split.

Lemma harvest_server_info_runs env :
  runs (Ldap.harvest_server_info env) (harvest_frame same_root_dse_keys).
Proof.
  intros w. unfold Ldap.harvest_server_info. run_step.
  all: frame_done.
  all: unfold same_root_dse_keys, root_dse_keys; rewrite !dict_has_set;
    reflexivity.
Qed.

Lemma harvest_root_dse_runs env :
  runs (Ldap.harvest_root_dse env) (harvest_frame one_root_dse_key).
Proof.
  intros w. unfold Ldap.harvest_root_dse. run_step.
  all: frame_done.
  all: unfold one_root_dse_key; do 2 eexists; split; [reflexivity|]; auto.
Qed.

Lemma harvest_sample_runs env :
  runs (Ldap.harvest_sample env) (harvest_frame same_root_dse_keys).
Proof.
  intros w. unfold Ldap.harvest_sample, Ldap.py_get, Ldap.py_index0, Ldap.truthy.
  run_step.
  all: frame_done.
  all: unfold same_root_dse_keys, root_dse_keys; rewrite !dict_has_set;
    reflexivity.
Qed.

Lemma on_bind_success_runs env :
  runs (Ldap.on_bind_success env)
       (fun w w' =>
          Ldap.conn w' = Ldap.conn w /\
          Ldap.success (Ldap.res w') = true /\
          (Ldap.metadata (Ldap.res w) = [] ->
           one_hot (root_dse_keys (Ldap.metadata (Ldap.res w'))))).
Proof.
  unfold Ldap.on_bind_success.
  eapply runs_weaken.
  - apply runs_seq with (R1 := fun w w' =>
        Ldap.conn w' = Ldap.conn w /\ Ldap.success (Ldap.res w') = true /\
        Ldap.metadata (Ldap.res w') = Ldap.metadata (Ldap.res w)).
    + intros w. eexists; split; [reflexivity|]. repeat split.
    + apply runs_seq; [apply harvest_server_info_runs|].
      apply runs_seq; [apply harvest_root_dse_runs|].
      apply harvest_sample_runs.
  - cbv beta. intros w w4 (w1 & (C1 & S1 & M1) & w2 & (C2 & S2 & M2)
                             & w3 & (C3 & S3 & M3) & (C4 & S4 & M4)).
    repeat split; try congruence.
    intros Hmd. unfold same_root_dse_keys in *. rewrite M4.
    destruct M3 as (k & v & -> & Hk).
    assert (H0 : root_dse_keys (Ldap.metadata (Ldap.res w2))
                 = [false; false; false])
      by (rewrite M2, M1, Hmd; reflexivity).
    unfold root_dse_keys in *. rewrite !dict_has_set.
    injection H0 as E1 E2 E3. rewrite E1, E2, E3.
    unfold one_hot. destruct Hk as [-> | [-> | ->]]; auto.
Qed.

Ltac world_simpl :=
  cbv beta iota;
  cbn [Ldap.res Ldap.conn Ldap.ticks Ldap.trace Ldap.metadata Ldap.success
       Ldap.timings Ldap.error Ldap.host Ldap.port Ldap.use_ldaps
       Ldap.starttls Ldap.initial_result app].

Ltac world_simpl_in H :=
  cbn [Ldap.res Ldap.conn Ldap.ticks Ldap.trace Ldap.metadata Ldap.success
       Ldap.timings Ldap.error Ldap.host Ldap.port Ldap.use_ldaps
       Ldap.starttls Ldap.initial_result app] in H.

(** One step through the probe: use what is known of the two named
    blocks, else ask the oracle. *)
Ltac probe_step env harvest Hh :=
  world_simpl;
  first
    [ match goal with
      | |- context [harvest ?w] =>
          let w' := fresh "w" in
          let E := fresh "E" in
          let HR := fresh "HR" in
          destruct (Hh w) as (w' & E & HR); rewrite E; world_simpl_in HR
      end
    | match goal with
      | |- context [Ldap.cleanup env ?t0 ?w] =>
          let w' := fresh "w" in
          let E := fresh "E" in
          let HF := fresh "HF" in
          destruct (cleanup_total env t0 w) as (w' & E & HF);
          rewrite E; world_simpl_in HF
      end
    | oracle_case ].

(** Past the open.  In a run in which [conn.bind()] was called and
    returned a true value, the result has [success] true and its
    metadata holds exactly one of the keys [rootDSE],
    [rootDSE_search_result] and [rootDSE_error], the last when the root
    DSE step raised (lines 118-119). *)
Lemma root_dse_report_after_bind env h p ul st t r tr :
  Ldap.try_anonymous_bind env h p ul st t = (Ret r, tr) ->
  In Ldap.EvBind tr ->
  Ldap.conn_bind env = Ret true ->
  Ldap.success r = true /\
  one_hot (root_dse_keys (Ldap.metadata r)).
Proof.
  intros Hrun Hin Hbind. revert Hrun.
  unfold Ldap.try_anonymous_bind, Ldap.try_anonymous_bind_from, Ldap.probe_body,
    Ldap.ldap_ops.
  pose proof (on_bind_success_runs env) as Hh.
  set (harvest := Ldap.on_bind_success env) in *. clearbody harvest.
  rewrite Hbind.
  unfold Ldap.try_finally, Ldap.try_except, Ldap.mbind, Ldap.attempt,
    Ldap.tcp_gate, Ldap.mbind, Ldap.now, Ldap.call, Ldap.ret, Ldap.raise,
    Ldap.set_conn, Ldap.set_timing, Ldap.set_error, Ldap.set_success,
    Ldap.update.
  repeat probe_step env harvest Hh.
  all: world_simpl; intros Hrun; inversion Hrun; subst; clear Hrun.
  all: try (exfalso; cbn [In] in Hin;
            repeat (destruct Hin as [Hin|Hin]; [discriminate Hin|]);
            exact Hin).
  all: match goal with
       | HF : _ /\ _ /\ _ /\ Ldap.trace _ = _ |- _ =>
           destruct HF as (_ & HS & HM & HT)
       end.
  all: first
         [ exfalso; rewrite HT in Hin; cbn [In app] in Hin;
           repeat (destruct Hin as [Hin|Hin]; [discriminate Hin|]);
           exact Hin
         | rewrite HS, HM; destruct HR as (_ & S1 & M1);
           split; [exact S1 | apply M1; reflexivity] ].
Qed.




(* ================================================================== *)
(** ** StartTLS together with LDAPS *)
(* ================================================================== *)

(** C2, as amended.  With both flags set, [main] makes no call at all
    to the network: once the host argument is parsed it prints the
    configuration error and returns, without calling the probe.  The
    probe itself, called with both flags, does not look at them first:
    its first call is the TCP check, and [tcp_connect_s] is recorded
    exactly when that check succeeds.  It never attempts StartTLS or
    the bind and returns [success] false.  Its own check of the flags
    comes after [conn.open()] (lines 72-75): the conflict is the error
    reported only when the open has returned a true value, and with an
    open that returns a false value, as that of ldap3 does, the error is
    the one of line 69. *)
Theorem starttls_with_ldaps db env args h p t :
  Ldap.arg_starttls args = true ->
  Ldap.arg_use_ldaps args = true ->
  Ldap.main db env args =
    match Ldap.parse_target db args with
    | Ret _ => (Ret tt, [Ldap.config_error])
    | Raise e => (Raise e, [])
    end /\
  forallb (fun ev => negb (Ldap.is_network ev)) (snd (Ldap.main db env args))
    = true /\
  exists r rest,
    Ldap.try_anonymous_bind env h p true true t
      = (Ret r, Ldap.EvTcpConnect h p t :: rest) /\
    Ldap.success r = false /\
    ~ In Ldap.EvStartTls rest /\
    ~ In Ldap.EvBind rest /\
    (forall e, Ldap.create_connection env h p t = Raise e ->
               Ldap.error r = Some (lit "TCP connection failed: " ++ emsg e) /\
               dict_has (Ldap.timings r) (lit "tcp_connect_s") = false) /\
    (Ldap.create_connection env h p t = Ret tt ->
     dict_has (Ldap.timings r) (lit "tcp_connect_s") = true) /\
    (Ldap.create_connection env h p t = Ret tt ->
     Ldap.Server env h p true t = Ret tt ->
     Ldap.Connection env = Ret tt ->
     Ldap.conn_open env = Ret false ->
     Ldap.error r = Some open_failed_message /\
     rest = [Ldap.EvServer h p true t; Ldap.EvConnection; Ldap.EvOpen;
             Ldap.EvUnbind]) /\
    (Ldap.create_connection env h p t = Ret tt ->
     Ldap.Server env h p true t = Ret tt ->
     Ldap.Connection env = Ret tt ->
     Ldap.conn_open env = Ret true ->
     Ldap.error r = Some conflict_message /\
     rest = [Ldap.EvServer h p true t; Ldap.EvConnection; Ldap.EvOpen;
             Ldap.EvUnbind]).
Proof.
  intros Hs Hl.
  assert (Hmain : Ldap.main db env args =
                  match Ldap.parse_target db args with
                  | Ret _ => (Ret tt, [Ldap.config_error])
                  | Raise e => (Raise e, [])
                  end).
  { unfold Ldap.main. rewrite Hs, Hl.
    destruct (Ldap.parse_target db args) as [[? ?]|?]; reflexivity. }
  split; [exact Hmain|]. split.
  { rewrite Hmain. destruct (Ldap.parse_target db args); reflexivity. }
  unfold Ldap.try_anonymous_bind, Ldap.try_anonymous_bind_from, Ldap.probe_body,
    Ldap.ldap_ops, Ldap.cleanup.
  unfold Ldap.try_finally, Ldap.try_except, Ldap.mbind, Ldap.attempt,
    Ldap.tcp_gate, Ldap.mbind, Ldap.now, Ldap.call, Ldap.ret, Ldap.raise,
    Ldap.get_conn, Ldap.set_conn, Ldap.set_timing, Ldap.set_error,
    Ldap.set_success, Ldap.update.
  repeat (world_simpl; oracle_case).
  all: world_simpl; do 2 eexists; split; [reflexivity|].
  all: cbn [Ldap.success Ldap.error Ldap.timings].
  all: repeat split; try (intros; discriminate).
  all: try (intros; congruence).
  all: try (rewrite !dict_has_set; reflexivity).
  all: try (cbn [In]; intros Hin;
            repeat (destruct Hin as [Hin|Hin]; [discriminate Hin|]);
            exact Hin).
  all: match goal with
       | H : Raise _ = Raise _ |- _ => injection H as <-; reflexivity
       end.
Qed.

Lemma starttls_with_ldaps_witness :
  Ldap.main Ldap.sample_db Ldap.open_directory both_flags =
    match Ldap.parse_target Ldap.sample_db both_flags with
    | Ret _ => (Ret tt, [Ldap.config_error])
    | Raise e => (Raise e, [])
    end /\
  forallb (fun ev => negb (Ldap.is_network ev))
          (snd (Ldap.main Ldap.sample_db Ldap.open_directory both_flags))
    = true /\
  exists r rest,
    Ldap.try_anonymous_bind Ldap.open_directory (lit "ldap.example.com") 636
                            true true 5
      = (Ret r, Ldap.EvTcpConnect (lit "ldap.example.com") 636 5 :: rest) /\
    Ldap.success r = false /\
    ~ In Ldap.EvStartTls rest /\
    ~ In Ldap.EvBind rest /\
    (forall e,
        Ldap.create_connection Ldap.open_directory (lit "ldap.example.com")
                               636 5 = Raise e ->
        Ldap.error r = Some (lit "TCP connection failed: " ++ emsg e) /\
        dict_has (Ldap.timings r) (lit "tcp_connect_s") = false) /\
    (Ldap.create_connection Ldap.open_directory (lit "ldap.example.com") 636 5
       = Ret tt ->
     dict_has (Ldap.timings r) (lit "tcp_connect_s") = true) /\
    (Ldap.create_connection Ldap.open_directory (lit "ldap.example.com") 636 5
       = Ret tt ->
     Ldap.Server Ldap.open_directory (lit "ldap.example.com") 636 true 5
       = Ret tt ->
     Ldap.Connection Ldap.open_directory = Ret tt ->
     Ldap.conn_open Ldap.open_directory = Ret false ->
     Ldap.error r = Some open_failed_message /\
     rest = [Ldap.EvServer (lit "ldap.example.com") 636 true 5;
             Ldap.EvConnection; Ldap.EvOpen; Ldap.EvUnbind]) /\
    (Ldap.create_connection Ldap.open_directory (lit "ldap.example.com") 636 5
       = Ret tt ->
     Ldap.Server Ldap.open_directory (lit "ldap.example.com") 636 true 5
       = Ret tt ->
     Ldap.Connection Ldap.open_directory = Ret tt ->
     Ldap.conn_open Ldap.open_directory = Ret true ->
     Ldap.error r = Some conflict_message /\
     rest = [Ldap.EvServer (lit "ldap.example.com") 636 true 5;
             Ldap.EvConnection; Ldap.EvOpen; Ldap.EvUnbind]).
Proof.
  apply (starttls_with_ldaps Ldap.sample_db Ldap.open_directory both_flags
                             (lit "ldap.example.com") 636 5);
    reflexivity.
Defined.

(** C2 as stated fails for the probe: called with both flags on a
    reachable directory it makes the TCP connection and records
    [tcp_connect_s]; what it reports is the error of line 69, not a
    configuration error. *)
Lemma conflict_checked_after_connect :
  ~ (forall env h p t r tr,
        Ldap.try_anonymous_bind env h p true true t = (Ret r, tr) ->
        dict_has (Ldap.timings r) (lit "tcp_connect_s") = false /\
        forallb (fun ev => negb (Ldap.is_network ev)) tr = true).
Proof.
  intros H.
  destruct (Ldap.try_anonymous_bind Ldap.open_directory
              (lit "ldap.example.com") 636 true true 5)
    as [[r|e] tr] eqn:E; [|vm_compute in E; discriminate].
  pose proof E as E'. vm_compute in E'. injection E' as Hr Ht.
  destruct (H _ _ _ _ _ _ E) as [Hk _].
  rewrite <- Hr in Hk. vm_compute in Hk. discriminate.
Qed.

(* ================================================================== *)
(** ** Worked runs *)
(* ================================================================== *)

(** The reference reader accepts the packet built for "public". *)
Example public_packet_decodes :
  Ber.decode_message (wire_layout 41 6 (lit "public")) =
  Some {| Ber.version := 0;
          Ber.community := lit "public";
          Ber.pdu :=
            {| Ber.request_id := 0x0EB376F4;
               Ber.error_status := 0;
               Ber.error_index := 0;
               Ber.varbinds := [([1; 3; 6; 1; 2; 1; 1; 5; 0], Ber.Null)] |} |}.
Proof. vm_compute; reflexivity. Qed.

(** A reply of four bytes outside 32..126 counts as printable content;
    a timeout is reported in words of its own. *)
Example four_control_bytes_are_content :
  Snmp.raw_udp_check (replying [1; 2; 3; 4]) (lit "192.0.2.1") 161
                     (lit "public") 2
  = Ret (true, lit "response received (no community string visible): ....").
Proof. vm_compute; reflexivity. Qed.

Example timeout_is_no_response :
  Snmp.raw_udp_check silent (lit "192.0.2.1") 161 (lit "public") 2
  = Ret (false, lit "no response (timeout)").
Proof. vm_compute; reflexivity. Qed.

(** A negative timeout is refused by [settimeout] at line 85, before
    the [try]: the ValueError leaves the function and nothing is sent,
    whatever the agent would answer. *)
Example negative_timeout_raises :
  Snmp.raw_udp_check (replying sample_reply) (lit "192.0.2.1") 161
                     (lit "public") (-1)
  = Raise (Exn ValueError (lit "Timeout value out of range")).
Proof. vm_compute; reflexivity. Qed.

(** The text of the UnicodeEncodeError: the character and its index for
    a single surrogate, the first and last index for a run of them. *)
Example surrogate_messages :
  Snmp.str_encode (lit "a" ++ [0xDFFF])
  = Raise (Exn UnicodeEncodeError
               (lit "'utf-8' codec can't encode character '\udfff' in position 1: surrogates not allowed")) /\
  Snmp.str_encode ([0xDC80; 0xDC81; 0xDC82] ++ lit "x")
  = Raise (Exn UnicodeEncodeError
               (lit "'utf-8' codec can't encode characters in position 0-2: surrogates not allowed")).
Proof. split; vm_compute; reflexivity. Qed.

(** A port written with a superscript digit passes [isdigit] and makes
    [int] raise, before [main] looks at the two flags. *)
Example superscript_port_raises :
  Ldap.main Ldap.sample_db Ldap.open_directory
    {| Ldap.arg_host := lit "ldap.example.com:" ++ [178];
       Ldap.arg_port := None;
       Ldap.arg_use_ldaps := true;
       Ldap.arg_starttls := true;
       Ldap.arg_timeout := 5;
       Ldap.arg_json := true |}
  = (Raise (Exn ValueError
                 (lit "invalid literal for int() with base 10: '" ++ [178]
                  ++ lit "'")), []).
Proof. vm_compute; reflexivity. Qed.

(** The outer length byte passes 127 once the community has 93 bytes:
    92 letters still give a message the reader accepts, 93 do not. *)
Example community_of_93_bytes_is_rejected :
  (exists m, Ber.decode_message (wire_layout 127 92 (repeat 97 92)) = Some m) /\
  Snmp.build_payload (repeat 97 93) = Ret (wire_layout 128 93 (repeat 97 93)) /\
  Ber.decode_message (wire_layout 128 93 (repeat 97 93)) = None.
Proof.
  split; [eexists; vm_compute; reflexivity|].
  split; vm_compute; reflexivity.
Qed.

(* ================================================================== *)
(** ** Further properties of raw_udp_check *)
(* ================================================================== *)

Lemma join_items_first_printable data idx :
  existsb printable_byte data = true ->
  Snmp.join_items idx (map Snmp.printable_item data)
  = Raise (Snmp.join_type_error (idx + first_printable data)).
Proof.
  revert idx; induction data as [|ch data IH]; intros idx H; [discriminate|].
  cbn [map Snmp.join_items first_printable]. unfold Snmp.printable_item at 1.
  simpl in H. unfold printable_byte in H at 1. unfold printable_byte at 1.
  destruct ((32 <=? ch) && (ch <? 127)).
  - rewrite Nat.add_0_r. reflexivity.
  - rewrite (IH (S idx) H). rewrite Nat.add_succ_r. reflexivity.
Qed.

Lemma first_printable_spec data :
  existsb printable_byte data = true ->
  printable_byte (nth (first_printable data) data 0) = true /\
  forallb (fun ch => negb (printable_byte ch))
          (firstn (first_printable data) data) = true.
Proof.
  induction data as [|ch data IH]; intros H; [discriminate|].
  cbn [first_printable]. simpl in H.
  destruct (printable_byte ch) eqn:E.
  - split; [exact E | reflexivity].
  - destruct (IH H) as [H1 H2]. cbn [nth firstn forallb].
    rewrite E, H1, H2. split; reflexivity.
Qed.

(** X1: whenever the packet can be built and the datagram received in
    the exchange holds a byte in 32..126, [raw_udp_check] raises
    TypeError, naming the position of the first such byte; it returns
    no verdict. *)
Theorem printable_reply_raises sock target port community timeout cb data :
  Snmp.str_encode community = Ret cb ->
  Snmp.len cb <= 220 ->
  Snmp.exchange sock target port timeout
                (wire_layout (Snmp.len cb + 35) (Snmp.len cb) cb)
    = Ret (Snmp.UdpData data) ->
  existsb printable_byte data = true ->
  Snmp.raw_udp_check sock target port community timeout
    = Raise (Snmp.join_type_error (first_printable data)) /\
  printable_byte (nth (first_printable data) data 0) = true /\
  forallb (fun ch => negb (printable_byte ch))
          (firstn (first_printable data) data) = true.
Proof.
  intros He Hn Hs Hd. split; [|apply first_printable_spec; exact Hd].
  unfold Snmp.raw_udp_check.
  rewrite (build_payload_fits _ _ He Hn). cbn [rbind]. rewrite Hs.
  cbn [rbind]. unfold Snmp.after_exchange, Snmp.classify_reply.
  rewrite (join_items_first_printable data 0 Hd). reflexivity.
Qed.

Lemma printable_reply_raises_witness :
  Snmp.raw_udp_check (replying sample_reply) (lit "192.0.2.1") 161
                     (lit "public") 2
    = Raise (Snmp.join_type_error (first_printable sample_reply)) /\
  printable_byte (nth (first_printable sample_reply) sample_reply 0) = true /\
  forallb (fun ch => negb (printable_byte ch))
          (firstn (first_printable sample_reply) sample_reply) = true.
Proof.
  apply (printable_reply_raises (replying sample_reply) (lit "192.0.2.1") 161
           (lit "public") 2 (lit "public") sample_reply).
  - reflexivity.
  - vm_compute; discriminate.
  - reflexivity.
  - reflexivity.
Defined.

(** X2: on a datagram without any byte in 32..126 the function returns
    a verdict: success naming the community when the community bytes
    occur in the datagram; else success when the datagram has four bytes
    or more; else failure naming the byte count.  The snippet is one dot
    for each byte received. *)
Theorem unprintable_reply_verdict sock target port community timeout cb data :
  Snmp.str_encode community = Ret cb ->
  Snmp.len cb <= 220 ->
  Snmp.exchange sock target port timeout
                (wire_layout (Snmp.len cb + 35) (Snmp.len cb) cb)
    = Ret (Snmp.UdpData data) ->
  forallb (fun ch => negb (printable_byte ch)) data = true ->
  Snmp.raw_udp_check sock target port community timeout =
  Ret (if contains data cb then
         (true, lit "response contains community '" ++ community
                ++ lit "'. Printable snippet: "
                ++ repeat 46 (List.length data))
       else if (4 <=? List.length data)%nat then
         (true, lit "response received (no community string visible): "
                ++ repeat 46 (List.length data))
       else
         (false, lit "received " ++ str_of_nat (List.length data)
                 ++ lit " bytes but no printable content")).
Proof.
  intros He Hn Hs Hd. unfold Snmp.raw_udp_check.
  rewrite (build_payload_fits _ _ He Hn). cbn [rbind]. rewrite Hs.
  cbn [rbind Snmp.after_exchange].
  apply (classify_reply_unprintable community cb data He Hd).
Qed.

Lemma unprintable_reply_verdict_witness :
  Snmp.raw_udp_check (replying [1; 2; 3]) (lit "192.0.2.1") 161
                     (lit "public") 2 =
  Ret (if contains [1; 2; 3] (lit "public") then
         (true, lit "response contains community '" ++ lit "public"
                ++ lit "'. Printable snippet: "
                ++ repeat 46 (List.length [1; 2; 3]))
       else if (4 <=? List.length [1; 2; 3])%nat then
         (true, lit "response received (no community string visible): "
                ++ repeat 46 (List.length [1; 2; 3]))
       else
         (false, lit "received " ++ str_of_nat (List.length [1; 2; 3])
                 ++ lit " bytes but no printable content")).
Proof.
  apply (unprintable_reply_verdict (replying [1; 2; 3]) (lit "192.0.2.1") 161
           (lit "public") 2 (lit "public") [1; 2; 3]).
  - reflexivity.
  - vm_compute; discriminate.
  - reflexivity.
  - reflexivity.
Defined.

Lemma contains_nil hay : contains hay [] = true.
Proof. destruct hay; reflexivity. Qed.

(** X3: with the empty community every datagram without a byte in
    32..126 is a success that claims to contain the community, the
    empty datagram included: [b'' in data] holds for every [data]. *)
Theorem empty_community_always_found sock target port timeout data :
  Snmp.exchange sock target port timeout (wire_layout 35 0 [])
    = Ret (Snmp.UdpData data) ->
  forallb (fun ch => negb (printable_byte ch)) data = true ->
  Snmp.raw_udp_check sock target port [] timeout =
  Ret (true, lit "response contains community ''. Printable snippet: "
             ++ repeat 46 (List.length data)).
Proof.
  intros Hs Hd. unfold Snmp.raw_udp_check.
  change (Snmp.build_payload []) with (Ret (wire_layout 35 0 [])).
  cbn [rbind]. rewrite Hs. cbn [rbind Snmp.after_exchange].
  rewrite (classify_reply_unprintable [] [] data eq_refl Hd).
  rewrite contains_nil. reflexivity.
Qed.

Lemma empty_community_always_found_witness :
  Snmp.raw_udp_check (replying []) (lit "192.0.2.1") 161 [] 2 =
  Ret (true, lit "response contains community ''. Printable snippet: "
             ++ repeat 46 (List.length (@nil Z))).
Proof.
  apply (empty_community_always_found (replying []) (lit "192.0.2.1") 161 2 []);
    reflexivity.
Defined.

(** The codec refuses exactly the surrogates. *)
Lemma utf8_char_surrogate c :
  Snmp.utf8_char c = None <-> surrogate c = true.
Proof.
  unfold Snmp.utf8_char, surrogate.
  destruct (Z.ltb_spec c 128) as [L1|L1];
    [|destruct (Z.ltb_spec c 2048) as [L2|L2];
      [|destruct (Z.ltb_spec c 65536) as [L3|L3]]].
  - split; [discriminate|]. intros Hs. apply andb_true_iff in Hs as [H1 H2].
    apply Z.leb_le in H1. lia.
  - split; [discriminate|]. intros Hs. apply andb_true_iff in Hs as [H1 H2].
    apply Z.leb_le in H1. lia.
  - destruct ((55296 <=? c) && (c <=? 57343)); split; congruence.
  - split; [discriminate|]. intros Hs. apply andb_true_iff in Hs as [H1 H2].
    apply Z.leb_le in H2. lia.
Qed.

Lemma refused_run_surrogate s : Snmp.refused_run s = surrogate_run s.
Proof.
  induction s as [|c s IH]; [reflexivity|].
  cbn [Snmp.refused_run surrogate_run].
  pose proof (utf8_char_surrogate c) as Hc.
  destruct (Snmp.utf8_char c), (surrogate c); try rewrite IH; try reflexivity.
  - destruct Hc as [_ Hc]. discriminate (Hc eq_refl).
  - destruct Hc as [Hc _]. discriminate (Hc eq_refl).
Qed.

(** Encoding stops at the first surrogate and reports the run of
    surrogates that starts there. *)
Lemma str_encode_from_surrogate pos community :
  existsb surrogate community = true ->
  let i := first_surrogate community in
  Snmp.str_encode_from pos community =
  Raise (Snmp.surrogates_not_allowed
           (pos + i) (nth i community 0)
           (surrogate_run (skipn (S i) community))).
Proof.
  revert pos; induction community as [|c s IH]; intros pos H; [discriminate|].
  cbn [Snmp.str_encode_from first_surrogate]. simpl in H.
  pose proof (utf8_char_surrogate c) as Hc.
  destruct (surrogate c) eqn:Es.
  - destruct Hc as [_ Hc]. rewrite (Hc eq_refl).
    cbn [nth skipn]. rewrite Nat.add_0_r, refused_run_surrogate. reflexivity.
  - destruct (Snmp.utf8_char c) as [bs|].
    + rewrite (IH (S pos) H). cbn [nth skipn].
      rewrite Nat.add_succ_r. reflexivity.
    + destruct Hc as [Hc _]. discriminate (Hc eq_refl).
Qed.

(** X4: a community that holds a surrogate code point cannot be encoded
    as UTF-8; [raw_udp_check] then raises UnicodeEncodeError whatever
    the socket and the network would do, so nothing is sent.  The error
    names the first surrogate and its index, or, when more surrogates
    follow it directly, the first and last index of that run. *)
Theorem surrogate_community_raises sock target port community timeout :
  existsb surrogate community = true ->
  let i := first_surrogate community in
  let e := Snmp.surrogates_not_allowed
             i (nth i community 0) (surrogate_run (skipn (S i) community)) in
  ekind e = UnicodeEncodeError /\
  surrogate (nth i community 0) = true /\
  existsb surrogate (firstn i community) = false /\
  Snmp.build_payload community = Raise e /\
  Snmp.raw_udp_check sock target port community timeout = Raise e.
Proof.
  intros H i e.
  pose proof (str_encode_from_surrogate 0 community H) as E.
  cbv zeta in E. rewrite Nat.add_0_l in E.
  fold i in E. fold e in E.
  split; [reflexivity|].
  assert (Hi : surrogate (nth i community 0) = true /\
               existsb surrogate (firstn i community) = false).
  { subst i. clear E e. induction community as [|c s IH]; [discriminate|].
    cbn [first_surrogate]. simpl in H.
    destruct (surrogate c) eqn:Es.
    - split; [exact Es | reflexivity].
    - destruct (IH H) as [H1 H2]. cbn [nth firstn existsb].
      rewrite Es, H2. split; [exact H1 | reflexivity]. }
  destruct Hi as [H1 H2]. split; [exact H1|]. split; [exact H2|].
  unfold Snmp.raw_udp_check, Snmp.build_payload, Snmp.str_encode. rewrite E.
  split; reflexivity.
Qed.

Lemma surrogate_community_raises_witness :
  let community := lit "pub" ++ [0xDC80] in
  let i := first_surrogate community in
  let e := Snmp.surrogates_not_allowed
             i (nth i community 0) (surrogate_run (skipn (S i) community)) in
  ekind e = UnicodeEncodeError /\
  surrogate (nth i community 0) = true /\
  existsb surrogate (firstn i community) = false /\
  Snmp.build_payload community = Raise e /\
  Snmp.raw_udp_check (replying [1; 2; 3; 4]) (lit "192.0.2.1") 161
                     community 2 = Raise e.
Proof.
  apply (surrogate_community_raises (replying [1; 2; 3; 4]) (lit "192.0.2.1")
           161 (lit "pub" ++ [0xDC80]) 2).
  reflexivity.
Defined.

(* ================================================================== *)
(** ** main of snmp_enum.py *)
(* ================================================================== *)


(** X6: when the library probe did not succeed and the agent's reply
    holds a byte in 32..126, the process ends with the TypeError of the
    raw probe, after the banner and the fallback notice and without any
    verdict line or exit code. *)
Theorem main_crashes_on_printable_reply pysnmp sock args cb data :
  match pysnmp with
  | Some lib =>
      some_value (lib (Snmp.arg_target args) (Snmp.arg_port args)
                      (Snmp.arg_community args) (Snmp.arg_timeout args))
  | None => false
  end = false ->
  Snmp.str_encode (Snmp.arg_community args) = Ret cb ->
  Snmp.len cb <= 220 ->
  Snmp.exchange sock (Snmp.arg_target args) (Snmp.arg_port args)
                (Snmp.arg_timeout args)
                (wire_layout (Snmp.len cb + 35) (Snmp.len cb) cb)
    = Ret (Snmp.UdpData data) ->
  existsb printable_byte data = true ->
  snd (Snmp.main pysnmp sock args)
    = Snmp.Crash (Snmp.join_type_error (first_printable data)) /\
  List.length (fst (Snmp.main pysnmp sock args)) = 2%nat.
Proof.
  intros Hlib He Hn Hs Hd.
  assert (Hraw : Snmp.raw_udp_check sock (Snmp.arg_target args)
                   (Snmp.arg_port args) (Snmp.arg_community args)
                   (Snmp.arg_timeout args)
                 = Raise (Snmp.join_type_error (first_printable data))).
  { unfold Snmp.raw_udp_check.
    rewrite (build_payload_fits _ _ He Hn). cbn [rbind]. rewrite Hs.
    cbn [rbind]. unfold Snmp.after_exchange, Snmp.classify_reply.
    rewrite (join_items_first_printable data 0 Hd). reflexivity. }
  unfold Snmp.main, Snmp.try_pysnmp_enum. cbv zeta. rewrite Hraw.
  destruct pysnmp as [lib|].
  - rewrite enum_loop_value. cbn [Snmp.success].
    fold (some_value (lib (Snmp.arg_target args) (Snmp.arg_port args)
                          (Snmp.arg_community args) (Snmp.arg_timeout args))).
    rewrite Hlib. split; reflexivity.
  - split; reflexivity.
Qed.

Lemma main_crashes_on_printable_reply_witness :
  snd (Snmp.main None (replying sample_reply) public_args)
    = Snmp.Crash (Snmp.join_type_error (first_printable sample_reply)) /\
  List.length (fst (Snmp.main None (replying sample_reply) public_args))
    = 2%nat.
Proof.
  apply (main_crashes_on_printable_reply None (replying sample_reply)
           public_args (lit "public") sample_reply).
  - reflexivity.
  - reflexivity.
  - vm_compute; discriminate.
  - reflexivity.
  - reflexivity.
Defined.

(* ================================================================== *)
(** ** The packet as a BER message *)
(* ================================================================== *)

(** More fuel never changes what the reader finds. *)
Lemma decode_fuel_succ f :
  (forall bs r, Ber.decode f bs = Some r -> Ber.decode (S f) bs = Some r) /\
  (forall bs r, Ber.decode_all f bs = Some r ->
                Ber.decode_all (S f) bs = Some r).
Proof.
  induction f as [|f [IHd IHa]]; [split; intros; discriminate|].
  split.
  - intros bs r. remember (S f) as g eqn:Eg.
    rewrite Eg at 1. cbn [Ber.decode].
    change (Ber.decode (S g) bs) with
      (match bs with
       | [] => None
       | tag :: after_tag =>
           match Ber.read_length after_tag with
           | None => None
           | Some (n, r) =>
               if n <=? Snmp.len r then
                 let content := firstn (Z.to_nat n) r in
                 let rest := skipn (Z.to_nat n) r in
                 let value :=
                   if tag =? 0x02 then
                     match content with
                     | [] => None
                     | _ => Some (Ber.Integer (Ber.int_be content))
                     end
                   else if tag =? 0x04 then Some (Ber.OctetString content)
                   else if tag =? 0x05 then
                     match content with [] => Some Ber.Null | _ => None end
                   else if tag =? 0x06 then
                     option_map Ber.Oid (Ber.oid_arcs content)
                   else if tag =? 0x30 then
                     option_map Ber.Sequence (Ber.decode_all g content)
                   else if tag =? 0xA0 then
                     option_map Ber.GetRequestPdu (Ber.decode_all g content)
                   else None in
                 option_map (fun v => (v, rest)) value
               else None
           end
       end).
    destruct bs as [|tag after_tag]; [discriminate|].
    destruct (Ber.read_length after_tag) as [[n rr]|]; [|discriminate].
    destruct (n <=? Snmp.len rr); [|discriminate].
    cbv zeta.
    destruct (tag =? 2); [auto|].
    destruct (tag =? 4); [auto|].
    destruct (tag =? 5); [auto|].
    destruct (tag =? 6); [auto|].
    destruct (tag =? 48).
    { destruct (Ber.decode_all f _) as [l|] eqn:E; [|discriminate].
      subst g. rewrite (IHa _ _ E). auto. }
    destruct (tag =? 160); [|auto].
    destruct (Ber.decode_all f _) as [l|] eqn:E; [|discriminate].
    subst g. rewrite (IHa _ _ E). auto.
  - intros bs r H. revert H.
    change (Ber.decode_all (S f) bs) with
      (match bs with
       | [] => Some []
       | _ :: _ =>
           match Ber.decode f bs with
           | Some (v, rest) => option_map (cons v) (Ber.decode_all f rest)
           | None => None
           end
       end).
    change (Ber.decode_all (S (S f)) bs) with
      (match bs with
       | [] => Some []
       | _ :: _ =>
           match Ber.decode (S f) bs with
           | Some (v, rest) => option_map (cons v) (Ber.decode_all (S f) rest)
           | None => None
           end
       end).
    destruct bs as [|b bs]; [auto|].
    destruct (Ber.decode f (b :: bs)) as [[v rest]|] eqn:E; [|discriminate].
    rewrite (IHd _ _ E). cbv beta iota.
    destruct (Ber.decode_all f rest) as [l|] eqn:E2; [|discriminate].
    rewrite (IHa _ _ E2). auto.
Qed.

Lemma decode_fuel_le f g bs r :
  (f <= g)%nat -> Ber.decode f bs = Some r -> Ber.decode g bs = Some r.
Proof.
  induction 1 as [|g _ IH]; [auto|].
  intros H. apply (proj1 (decode_fuel_succ g)). auto.
Qed.

Lemma decode_all_fuel_le f g bs r :
  (f <= g)%nat -> Ber.decode_all f bs = Some r -> Ber.decode_all g bs = Some r.
Proof.
  induction 1 as [|g _ IH]; [auto|].
  intros H. apply (proj2 (decode_fuel_succ g)). auto.
Qed.

Lemma len_cons {A} (a : A) l : Snmp.len (a :: l) = 1 + Snmp.len l.
Proof. unfold Snmp.len. cbn [List.length]. lia. Qed.

Lemma to_nat_len {A} (l : list A) : Z.to_nat (Snmp.len l) = List.length l.
Proof. unfold Snmp.len. apply Nat2Z.id. Qed.

Lemma decode_version f r :
  Ber.decode (S f) (0x02 :: 0x01 :: 0x00 :: r) = Some (Ber.Integer 0, r).
Proof.
  cbn [Ber.decode Ber.read_length]. change (1 <? 128) with true. cbv iota.
  assert (H : (1 <=? Snmp.len (0 :: r)) = true)
    by (apply Z.leb_le; rewrite len_cons; pose proof (len_nonneg r); lia).
  rewrite H. reflexivity.
Qed.

Lemma decode_octets f cb r :
  Snmp.len cb < 128 ->
  Ber.decode (S f) (0x04 :: Snmp.len cb :: cb ++ r)
  = Some (Ber.OctetString cb, r).
Proof.
  intros Hn. cbn [Ber.decode Ber.read_length].
  destruct (Z.ltb_spec (Snmp.len cb) 128); [|lia].
  assert (H1 : (Snmp.len cb <=? Snmp.len (cb ++ r)) = true)
    by (apply Z.leb_le; rewrite len_app; pose proof (len_nonneg r); lia).
  rewrite H1. cbv zeta. rewrite to_nat_len.
  rewrite firstn_app, Nat.sub_diag, firstn_all, firstn_O, app_nil_r.
  rewrite skipn_app, Nat.sub_diag, skipn_all, skipn_O.
  reflexivity.
Qed.

Lemma decode_sequence f ll content items :
  0 <= ll < 128 ->
  ll = Snmp.len content ->
  Ber.decode_all f content = Some items ->
  Ber.decode (S f) (0x30 :: ll :: content) = Some (Ber.Sequence items, []).
Proof.
  intros Hl -> Hd. cbn [Ber.decode Ber.read_length].
  destruct (Z.ltb_spec (Snmp.len content) 128); [|lia].
  rewrite Z.leb_refl. cbv zeta. rewrite to_nat_len.
  rewrite firstn_all, skipn_all, Hd. reflexivity.
Qed.

Lemma decode_all_cons f b bs v rest l :
  Ber.decode f (b :: bs) = Some (v, rest) ->
  Ber.decode_all f rest = Some l ->
  Ber.decode_all (S f) (b :: bs) = Some (v :: l).
Proof.
  intros Hd Ha. cbn [Ber.decode_all]. rewrite Hd, Ha. reflexivity.
Qed.

Lemma decode_all_tail :
  Ber.decode_all 12 wire_tail
  = Some [Ber.GetRequestPdu
            [Ber.Integer 0x0EB376F4; Ber.Integer 0; Ber.Integer 0;
             Ber.Sequence
               [Ber.Sequence [Ber.Oid [1; 3; 6; 1; 2; 1; 1; 5; 0]; Ber.Null]]]].
Proof. vm_compute; reflexivity. Qed.

(** X7: for a community of at most 92 bytes the packet that
    [raw_udp_check] builds is one BER message, read back as version 0,
    the community bytes unchanged, and the GetRequest of the fixed
    tail. *)
Theorem short_community_packet_is_ber community cb :
  Snmp.str_encode community = Ret cb ->
  Snmp.len cb <= 92 ->
  exists payload,
    Snmp.build_payload community = Ret payload /\
    Ber.decode_message payload =
    Some {| Ber.version := 0; Ber.community := cb; Ber.pdu := tail_request |}.
Proof.
  intros He Hn. eexists. split.
  - apply build_payload_fits; [exact He | lia].
  - pose proof (len_nonneg cb) as H0.
    unfold Ber.decode_message.
    set (p := wire_layout (Snmp.len cb + 35) (Snmp.len cb) cb).
    assert (Hd : Ber.decode 15 p
                 = Some (Ber.Sequence
                           [Ber.Integer 0; Ber.OctetString cb;
                            Ber.GetRequestPdu
                              [Ber.Integer 0x0EB376F4; Ber.Integer 0;
                               Ber.Integer 0;
                               Ber.Sequence
                                 [Ber.Sequence
                                    [Ber.Oid [1; 3; 6; 1; 2; 1; 1; 5; 0];
                                     Ber.Null]]]], [])).
    { unfold p, wire_layout. cbn [app].
      apply decode_sequence; [lia| |].
      - rewrite !len_cons, len_app. change (Snmp.len wire_tail) with 30. lia.
      - apply decode_all_cons with (rest := 4 :: Snmp.len cb :: cb ++ wire_tail).
        + apply decode_version.
        + apply decode_all_cons with (rest := wire_tail).
          * apply decode_octets. lia.
          * exact decode_all_tail. }
    rewrite (decode_fuel_le 15 (S (List.length p)) p _) with (2 := Hd).
    + reflexivity.
    + unfold p, wire_layout. cbn [app List.length]. rewrite length_app.
      change (List.length wire_tail) with 30%nat. lia.
Qed.

Lemma short_community_packet_is_ber_witness :
  exists payload,
    Snmp.build_payload (lit "public") = Ret payload /\
    Ber.decode_message payload =
    Some {| Ber.version := 0; Ber.community := lit "public";
            Ber.pdu := tail_request |}.
Proof.
  apply (short_community_packet_is_ber (lit "public") (lit "public")).
  - reflexivity.
  - vm_compute; discriminate.
Defined.

Lemma utf8_char_nonneg c :
  0 <= c ->
  match Snmp.utf8_char c with
  | Some bs => Forall (fun b => 0 <= b) bs
  | None => True
  end.
Proof.
  intros Hc. unfold Snmp.utf8_char.
  assert (Hs : forall n, 0 <= Z.shiftr c n)
    by (intros n; apply Z.shiftr_nonneg; exact Hc).
  assert (Ha : forall a, 0 <= Z.land a 63)
    by (intros a; apply Z.land_nonneg; right; lia).
  assert (Hb : forall l, Forall (fun b => 0 <= b) l ->
               forall k x, 0 <= k -> 0 <= x ->
               Forall (fun b => 0 <= b) (Z.lor k x :: l))
    by (intros; apply Forall_cons; [apply Z.lor_nonneg|]; auto).
  destruct (c <? 128); [apply Forall_cons; [exact Hc | apply Forall_nil]|].
  destruct (c <? 2048); [repeat (apply Hb; [|lia|auto]); apply Forall_nil|].
  destruct (c <? 65536).
  - destruct ((55296 <=? c) && (c <=? 57343)); [exact I|].
    repeat (apply Hb; [|lia|auto]); apply Forall_nil.
  - repeat (apply Hb; [|lia|auto]); apply Forall_nil.
Qed.

Lemma str_encode_nonneg community cb :
  Forall (fun c => 0 <= c) community ->
  Snmp.str_encode community = Ret cb ->
  Forall (fun b => 0 <= b) cb.
Proof.
  intros H. unfold Snmp.str_encode. generalize 0%nat. revert cb.
  induction H as [|c s Hc _ IH]; intros cb pos.
  - intros [= <-]. constructor.
  - cbn [Snmp.str_encode_from]. pose proof (utf8_char_nonneg c Hc) as Hu.
    destruct (Snmp.utf8_char c) as [bs|]; [|discriminate].
    destruct (Snmp.str_encode_from (S pos) s) as [rest|] eqn:Er; [|discriminate].
    intros [= <-]. apply Forall_app. split; [exact Hu|].
    apply (IH rest (S pos)). exact Er.
Qed.

Lemma uint_be_lower acc l :
  0 <= acc -> Forall (fun b => 0 <= b) l -> acc <= Ber.uint_be acc l.
Proof.
  intros Ha H; revert acc Ha; induction H as [|b l Hb _ IH]; intros acc Ha.
  - cbn. lia.
  - cbn [Ber.uint_be]. specialize (IH (256 * acc + b)). lia.
Qed.

Lemma nonneg_firstn k l :
  Forall (fun b => 0 <= b) l -> Forall (fun b => 0 <= b) (firstn k l).
Proof.
  intros H; revert k; induction H as [|b l Hb _ IH]; intros [|k];
    cbn [firstn]; auto.
Qed.

Lemma wire_tail_nonneg : Forall (fun b => 0 <= b) wire_tail.
Proof. repeat constructor; discriminate. Qed.

(** X8: from 93 community bytes on, as long as the packet is built at
    all (up to 220), it is not a BER message: its outer length byte is
    above 127, and read as a long-form length it does not fit what
    follows. *)
Theorem long_community_packet_is_not_ber community cb :
  Snmp.str_encode community = Ret cb ->
  Forall (fun c => 0 <= c) community ->
  93 <= Snmp.len cb <= 220 ->
  exists payload,
    Snmp.build_payload community = Ret payload /\
    Ber.decode_message payload = None.
Proof.
  intros He Hv Hn. eexists. split.
  - apply build_payload_fits; [exact He | lia].
  - pose proof (str_encode_nonneg _ _ Hv He) as Hcb.
    unfold Ber.decode_message, wire_layout. cbn [app].
    set (rest2 := 0 :: 4 :: Snmp.len cb :: cb ++ wire_tail).
    assert (Hr2 : Forall (fun b => 0 <= b) rest2).
    { unfold rest2. repeat constructor; try lia.
      apply Forall_app; split; [exact Hcb | exact wire_tail_nonneg]. }
    assert (Hlen : Snmp.len rest2 = Snmp.len cb + 33).
    { unfold rest2. rewrite !len_cons, len_app.
      change (Snmp.len wire_tail) with 30. lia. }
    cbn [List.length]. cbn [Ber.decode Ber.read_length].
    destruct (Z.ltb_spec (Snmp.len cb + 35) 128); [lia|].
    destruct (Z.eqb_spec (Snmp.len cb + 35) 128) as [E|E]; [reflexivity|].
    destruct (Z.eqb_spec (Snmp.len cb + 35) 255) as [E'|E']; [reflexivity|].
    cbn [orb].
    remember (Z.to_nat (Snmp.len cb + 35 - 128)) as k eqn:Ek.
    destruct (Z.of_nat k <=? Snmp.len (2 :: 1 :: rest2)); [|reflexivity].
    destruct k as [|[|k]]; [lia| |].
    + cbn [firstn skipn Ber.uint_be]. change (256 * 0 + 2) with 2.
      destruct (2 <=? Snmp.len (1 :: rest2)); [|reflexivity].
      cbv zeta. change (Z.to_nat 2) with 2%nat.
      unfold rest2 at 1. cbn [firstn].
      change (48 =? 2) with false. change (48 =? 4) with false.
      change (48 =? 5) with false. change (48 =? 6) with false.
      change (48 =? 48) with true. cbv iota.
      destruct (List.length rest2) as [|[|n]]; reflexivity.
    + cbn [firstn Ber.uint_be]. change (256 * (256 * 0 + 2) + 1) with 513.
      pose proof (uint_be_lower 513 (firstn k rest2) ltac:(lia)
                    (nonneg_firstn k rest2 Hr2)) as Hu.
      assert (Hs : Snmp.len (skipn (S (S k)) (2 :: 1 :: rest2)) <= 255).
      { cbn [skipn]. unfold Snmp.len in *. rewrite length_skipn. lia. }
      destruct (Z.leb_spec (Ber.uint_be 513 (firstn k rest2))
                  (Snmp.len (skipn (S (S k)) (2 :: 1 :: rest2))));
        [lia | reflexivity].
Qed.

Lemma long_community_packet_is_not_ber_witness :
  exists payload,
    Snmp.build_payload (repeat 97 100) = Ret payload /\
    Ber.decode_message payload = None.
Proof.
  apply (long_community_packet_is_not_ber (repeat 97 100) (repeat 97 100)).
  - apply encode_repeat_a.
  - apply Forall_forall. intros c Hc. apply repeat_spec in Hc. subst c. lia.
  - rewrite len_repeat. lia.
Defined.

(* ================================================================== *)
(** ** Further properties of try_anonymous_bind *)
(* ================================================================== *)

Ltac harvest_done :=
  unfold harvested; world_simpl;
  first
    [ exists []; rewrite app_nil_r; split; reflexivity
    | eexists [_]; split; reflexivity
    | eexists [_; _]; rewrite <- app_assoc; split; reflexivity ].

Ltac harvest_step :=
  run_step; eexists; harvest_done.

Lemma harvest_server_info_harvests env :
  harvests (Ldap.harvest_server_info env) false.
Proof. intros w. unfold Ldap.harvest_server_info. harvest_step. Qed.

Lemma harvest_root_dse_harvests env :
  harvests (Ldap.harvest_root_dse env) false.
Proof. intros w. unfold Ldap.harvest_root_dse. harvest_step. Qed.

Lemma harvest_sample_harvests env :
  harvests (Ldap.harvest_sample env) false.
Proof.
  intros w. unfold Ldap.harvest_sample, Ldap.py_get, Ldap.py_index0, Ldap.truthy.
  harvest_step.
Qed.

Lemma forallb_app_true {A} (f : A -> bool) l1 l2 :
  forallb f l1 = true -> forallb f l2 = true -> forallb f (l1 ++ l2) = true.
Proof. intros H1 H2. rewrite forallb_app, H1, H2. reflexivity. Qed.

Lemma harvests_seq c1 c2 f1 f2 :
  harvests c1 f1 -> harvests c2 f2 ->
  harvests (Ldap.mbind c1 (fun _ => c2)) (f2 || f1).
Proof.
  intros H1 H2 w.
  destruct (H1 w) as (md1 & evs1 & E1 & S1).
  destruct (H2 (harvested w f1 md1 evs1)) as (md2 & evs2 & E2 & S2).
  exists md2, (evs1 ++ evs2). split; [|apply forallb_app_true; assumption].
  unfold Ldap.mbind. rewrite E1, E2. unfold harvested.
  cbn [Ldap.res Ldap.conn Ldap.ticks Ldap.trace Ldap.host Ldap.port
       Ldap.use_ldaps Ldap.starttls Ldap.success Ldap.error Ldap.timings].
  rewrite <- app_assoc. destruct f1, f2; reflexivity.
Qed.

Lemma on_bind_success_harvests env : harvests (Ldap.on_bind_success env) true.
Proof.
  unfold Ldap.on_bind_success.
  apply (harvests_seq _ _ true false).
  - intros w. exists (Ldap.metadata (Ldap.res w)), [].
    split; [|reflexivity]. unfold harvested. rewrite app_nil_r. reflexivity.
  - apply (harvests_seq _ _ false false); [apply harvest_server_info_harvests|].
    apply (harvests_seq _ _ false false); [apply harvest_root_dse_harvests|].
    apply harvest_sample_harvests.
Qed.

(** Runs the probe along every path; the harvesting block is taken from
    [on_bind_success_harvests]. *)
Ltac path_step harvest Hh :=
  world_simpl;
  first
    [ match goal with
      | |- context [harvest ?w] =>
          let md := fresh "md" in
          let evs := fresh "evs" in
          let E := fresh "E" in
          let Hev := fresh "Hev" in
          destruct (Hh w) as (md & evs & E & Hev); rewrite E;
          unfold harvested
      end
    | oracle_case ].

Ltac probe_paths env :=
  unfold after_probe, Ldap.try_anonymous_bind, Ldap.try_anonymous_bind_from,
    Ldap.probe_body, Ldap.ldap_ops, Ldap.cleanup;
  let Hh := fresh "Hh" in
  pose proof (on_bind_success_harvests env) as Hh;
  let harvest := fresh "harvest" in
  set (harvest := Ldap.on_bind_success env) in *; clearbody harvest;
  unfold Ldap.try_finally, Ldap.try_except, Ldap.mbind, Ldap.attempt,
    Ldap.tcp_gate, Ldap.mbind, Ldap.now, Ldap.call, Ldap.ret, Ldap.raise,
    Ldap.get_conn, Ldap.set_conn, Ldap.set_timing, Ldap.set_error,
    Ldap.set_success, Ldap.update;
  repeat path_step harvest Hh;
  world_simpl.

(** X9: on every path the result repeats the host, the port and the two
    flags the probe was called with. *)
Theorem result_echoes_arguments env h p ul st t :
  after_probe env h p ul st t (fun r _ =>
    Ldap.host r = h /\ Ldap.port r = p /\
    Ldap.use_ldaps r = ul /\ Ldap.starttls r = st).
Proof.
  probe_paths env.
  all: repeat split.
Qed.

(** Closes [In x l] for an element among the listed ones. *)
Ltac in_listed :=
  solve [cbn [In]; repeat (first [left; reflexivity | right])].

(** Refutes [H : In x l] for a list that is written out and lacks [x]. *)
Ltac not_listed H :=
  solve [exfalso; cbn [In] in H;
         repeat (destruct H as [H|H]; [discriminate H|]); exact H].

(** X10: [success] is true exactly when [conn.bind()] was called and
    returned true. *)
Theorem success_means_bind_accepted env h p ul st t :
  after_probe env h p ul st t (fun r tr =>
    Ldap.success r = true <->
    (In Ldap.EvBind tr /\ Ldap.conn_bind env = Ret true)).
Proof.
  probe_paths env.
  all: split;
    [ intros H; first [discriminate H | split; [in_listed | reflexivity]]
    | intros [H1 H2];
      first [reflexivity | discriminate H2 | not_listed H1] ].
Qed.

(** X11: [success] and [error] exclude each other and one of them is
    always there: the error is [None] exactly when [success] is true. *)
Theorem success_iff_no_error env h p ul st t :
  after_probe env h p ul st t (fun r _ =>
    Ldap.success r = true <-> Ldap.error r = None).
Proof.
  probe_paths env.
  all: split; intros H; first [reflexivity | discriminate H].
Qed.

(** X12: a failure always carries one of four messages: the TCP check,
    the server object, the LDAP operations, or the refused bind. *)
Theorem failure_messages env h p ul st t :
  after_probe env h p ul st t (fun r _ =>
    Ldap.success r = false ->
    exists msg,
      Ldap.error r = Some msg /\
      (startswith msg (lit "TCP connection failed: ")
       || startswith msg (lit "Server object creation failed: ")
       || startswith msg (lit "Exception during LDAP operations: ")
       || startswith msg (lit "Bind failed: ")) = true).
Proof.
  probe_paths env.
  all: intros H; try discriminate H.
  all: eexists; split; [reflexivity|].
  all: rewrite startswith_app, ?orb_true_r; reflexivity.
Qed.

(** X13: [conn.bind()] is called exactly when the TCP check, the server
    object, the connection object and the open succeeded and, if
    StartTLS was asked for, LDAPS was not and the upgrade succeeded. *)
Theorem bind_called_iff_reached env h p ul st t :
  after_probe env h p ul st t (fun _ tr =>
    In Ldap.EvBind tr <-> bind_reached env h p ul st t).
Proof.
  probe_paths env.
  all: unfold bind_reached.
  all: repeat match goal with a : unit |- _ => destruct a end.
  all: split;
    [ intros H;
      first [ not_listed H
            | repeat split; try assumption; try reflexivity;
              intros; congruence ]
    | intros (H1 & H2 & H3 & H4 & H5);
      first [ in_listed
            | congruence
            | destruct H5 as [H5 H6]; [reflexivity|]; congruence ] ].
Qed.

Lemma searches_only evs ev :
  forallb is_search evs = true -> In ev evs -> is_search ev = true.
Proof.
  intros H Hin. rewrite forallb_forall in H. apply H. exact Hin.
Qed.

(** Refutes [H : In x (a :: b :: ... :: evs ++ [c])] when [x] is not a
    search, not listed, and [evs] are searches. *)
Ltac not_in_run H Hev :=
  solve [exfalso; cbn [In] in H;
         repeat (destruct H as [H|H]; [discriminate H|]);
         apply in_app_or in H; destruct H as [H|H];
         [ apply (searches_only _ _ Hev) in H; discriminate H
         | cbn [In] in H;
           repeat (destruct H as [H|H]; [discriminate H|]); exact H ]].

(** X14: a search is only made in a run that ends with [success] true,
    and StartTLS is only attempted when it was asked for without
    LDAPS. *)
Theorem searches_and_starttls_guarded env h p ul st t :
  after_probe env h p ul st t (fun r tr =>
    (forall base, In (Ldap.EvSearch base) tr -> Ldap.success r = true) /\
    (In Ldap.EvStartTls tr -> st = true /\ ul = false)).
Proof.
  probe_paths env.
  all: split;
    [ intros base H; first [reflexivity | not_listed H]
    | intros H;
      first [ split; congruence
            | not_listed H
            | match goal with Hev : forallb is_search _ = true |- _ =>
                not_in_run H Hev
              end ] ].
Qed.

Ltac eval_dict_has :=
  repeat match goal with
         | |- context [dict_has ?d ?k] =>
             let v := eval vm_compute in (dict_has d k) in
             change (dict_has d k) with v
         end.

(** X15: [tcp_connect_s] is recorded exactly when the TCP check
    succeeded, and [bind_s] exactly when [conn.bind()] was called and
    returned, whether it accepted or refused. *)
Theorem timings_recorded env h p ul st t :
  after_probe env h p ul st t (fun r tr =>
    (dict_has (Ldap.timings r) (lit "tcp_connect_s") = true <->
     Ldap.create_connection env h p t = Ret tt) /\
    (dict_has (Ldap.timings r) (lit "bind_s") = true <->
     (In Ldap.EvBind tr /\ exists b, Ldap.conn_bind env = Ret b))).
Proof.
  probe_paths env.
  all: repeat match goal with a : unit |- _ => destruct a end.
  all: eval_dict_has.
  all: split; split.
  all: try (intros H; first [reflexivity | assumption | discriminate H]).
  all: try (intros _; split; [in_listed | eexists; reflexivity]).
  all: try (intros [H1 [b H2]]; first [discriminate H2 | not_listed H1]).
Qed.

(** X16: the metadata stay empty unless the bind was accepted. *)
Theorem no_metadata_without_success env h p ul st t :
  after_probe env h p ul st t (fun r _ =>
    Ldap.success r = false -> Ldap.metadata r = []).
Proof.
  probe_paths env.
  all: intros H; first [reflexivity | discriminate H].
Qed.

(** X17: [conn.unbind()] is called exactly when the connection object
    was created, and it is then the last call of the run. *)
Theorem unbind_closes_the_run env h p ul st t :
  after_probe env h p ul st t (fun _ tr =>
    (In Ldap.EvUnbind tr <->
     (In Ldap.EvConnection tr /\ Ldap.Connection env = Ret tt)) /\
    (In Ldap.EvUnbind tr -> exists before, tr = before ++ [Ldap.EvUnbind])).
Proof.
  probe_paths env.
  all: repeat match goal with a : unit |- _ => destruct a end.
  all: split; [split|].
  all: try (intros H; first [ not_listed H
                            | split; [in_listed | first [assumption | reflexivity]] ]).
  all: try (intros [H1 H2];
            first [ in_listed | discriminate H2 | not_listed H1
                  | rewrite !app_comm_cons; apply in_or_app; right;
                    left; reflexivity ]).
  all: try (intros H;
            first [ not_listed H
                  | match goal with
                    | |- exists b, ?l = _ =>
                        exists (removelast l); reflexivity
                    end
                  | rewrite !app_comm_cons; eexists; reflexivity ]).
Qed.

Lemma cleanup_ignores_unbind r1 r2 env t0 w :
  Ldap.cleanup (with_unbind r1 env) t0 w
  = Ldap.cleanup (with_unbind r2 env) t0 w.
Proof.
  unfold Ldap.cleanup, Ldap.mbind, Ldap.get_conn, Ldap.try_except, Ldap.call,
    Ldap.ret, Ldap.now, Ldap.set_timing, Ldap.update.
  cbn [Ldap.conn_unbind Ldap.time_time with_unbind].
  destruct (Ldap.conn w); [|reflexivity].
  destruct r1 as [[]|e1], r2 as [[]|e2]; reflexivity.
Qed.

(** X18: whether [conn.unbind()] returns or raises makes no difference:
    the probe returns the same result after the same calls. *)
Theorem unbind_outcome_ignored r1 r2 env h p ul st t :
  Ldap.try_anonymous_bind (with_unbind r1 env) h p ul st t
  = Ldap.try_anonymous_bind (with_unbind r2 env) h p ul st t.
Proof.
  unfold Ldap.try_anonymous_bind, Ldap.try_anonymous_bind_from, Ldap.probe_body.
  change (Ldap.ldap_ops (with_unbind r1 env) ul st)
    with (Ldap.ldap_ops env ul st).
  change (Ldap.ldap_ops (with_unbind r2 env) ul st)
    with (Ldap.ldap_ops env ul st).
  set (ops := Ldap.ldap_ops env ul st). clearbody ops.
  unfold Ldap.mbind, Ldap.attempt, Ldap.tcp_gate, Ldap.mbind, Ldap.now,
    Ldap.call, Ldap.set_timing, Ldap.set_error, Ldap.update, Ldap.try_finally.
  cbn [Ldap.create_connection Ldap.Server Ldap.time_time with_unbind].
  world_simpl.
  destruct (Ldap.create_connection env h p t) as [[]|e]; [|reflexivity].
  destruct (Ldap.Server env h p ul t) as [[]|e]; [|reflexivity].
  match goal with
  | |- context [Ldap.try_except ops ?hd ?w] =>
      destruct (Ldap.try_except ops hd w) as [r0 w']
  end.
  rewrite (cleanup_ignores_unbind r1 r2). reflexivity.
Qed.

(** X19: when the bind is refused, the result carries the server's
    answer as "Bind failed: ...", no metadata, and all three timings;
    no search is made and the connection is unbound. *)
Theorem refused_bind_result env h p ul st t :
  bind_reached env h p ul st t ->
  Ldap.conn_bind env = Ret false ->
  after_probe env h p ul st t (fun r tr =>
    Ldap.success r = false /\
    Ldap.error r = Some (lit "Bind failed: " ++ Ldap.bind_result_text env) /\
    Ldap.metadata r = [] /\
    dict_keys (Ldap.timings r)
      = [lit "tcp_connect_s"; lit "bind_s"; lit "total_s"] /\
    tr = [Ldap.EvTcpConnect h p t; Ldap.EvServer h p ul t;
          Ldap.EvConnection; Ldap.EvOpen]
         ++ (if st then [Ldap.EvStartTls] else [])
         ++ [Ldap.EvBind; Ldap.EvUnbind]).
Proof.
  intros (H1 & H2 & H3 & H4 & H5) Hb.
  destruct st; [destruct (H5 eq_refl) as [-> H6]|clear H5].
  all: probe_paths env.
  all: try congruence.
  all: repeat split.
Qed.

Lemma refused_bind_result_witness :
  after_probe (with_bind (Ret false)
                 (directory (Ret tt) (Ret true) (Ret true) []))
              (lit "ldap.example.com") 389 false false 5 (fun r tr =>
    Ldap.success r = false /\
    Ldap.error r = Some (lit "Bind failed: "
                         ++ Ldap.bind_result_text
                              (with_bind (Ret false)
                                 (directory (Ret tt) (Ret true) (Ret true)
                                            []))) /\
    Ldap.metadata r = [] /\
    dict_keys (Ldap.timings r)
      = [lit "tcp_connect_s"; lit "bind_s"; lit "total_s"] /\
    tr = [Ldap.EvTcpConnect (lit "ldap.example.com") 389 5;
          Ldap.EvServer (lit "ldap.example.com") 389 false 5;
          Ldap.EvConnection; Ldap.EvOpen]
         ++ (if false then [Ldap.EvStartTls] else [])
         ++ [Ldap.EvBind; Ldap.EvUnbind]).
Proof.
  apply (refused_bind_result
           (with_bind (Ret false)
              (directory (Ret tt) (Ret true) (Ret true) []))).
  - unfold bind_reached. repeat split; discriminate.
  - reflexivity.
Defined.

Ltac eval_keys :=
  repeat match goal with
         | |- context [pystr_eqb (lit ?a) (lit ?b)] =>
             let v := eval vm_compute in (pystr_eqb (lit a) (lit b)) in
             change (pystr_eqb (lit a) (lit b)) with v
         end.

Ltac dict_simpl :=
  repeat (progress (cbn [dict_set dict_get]; eval_keys; cbv beta iota)).

Lemma on_bind_success_empty_root env w :
  Ldap.search_root env = Ret false ->
  Ldap.metadata (Ldap.res w) = [] ->
  exists md,
    Ldap.on_bind_success env w
      = (Ret tt, harvested w true md [Ldap.EvSearch (Ldap.VStr [])]) /\
    dict_get md (lit "rootDSE_search_result") = Some (Ldap.root_result env) /\
    dict_get md (lit "namingContexts_missing") = Some (Ldap.VBool true) /\
    dict_has md (lit "rootDSE") = false /\
    dict_has md (lit "sample_base_found") = false.
Proof.
  intros Hsr Hmd.
  unfold Ldap.on_bind_success, Ldap.harvest_server_info, Ldap.harvest_root_dse,
    Ldap.harvest_sample, Ldap.py_get, Ldap.py_index0, Ldap.truthy.
  unfold Ldap.try_except, Ldap.mbind, Ldap.lift, Ldap.ret, Ldap.raise,
    Ldap.call, Ldap.get_metadata, Ldap.set_metadata, Ldap.set_success,
    Ldap.update.
  rewrite Hsr. world_simpl. rewrite Hmd.
  repeat (world_simpl; dict_simpl; oracle_case).
  all: world_simpl; dict_simpl.
  all: eexists; split; [unfold harvested; world_simpl; reflexivity|].
  all: repeat split.
Qed.

Ltac empty_root_step Hsr :=
  world_simpl;
  first
    [ match goal with
      | |- context [Ldap.on_bind_success ?e ?w] =>
          let md := fresh "md" in
          let E := fresh "E" in
          let Hmd := fresh "Hmd" in
          destruct (on_bind_success_empty_root e w Hsr eq_refl)
            as (md & E & Hmd);
          rewrite E; unfold harvested
      end
    | oracle_case ].

(** X20: when the bind is accepted and the root DSE search finds
    nothing, the result is a success whose metadata hold the raw search
    outcome under [rootDSE_search_result] and the mark
    [namingContexts_missing]; there is no [rootDSE], and no second
    search is made. *)
Theorem empty_root_dse_result env h p ul st t :
  bind_reached env h p ul st t ->
  Ldap.conn_bind env = Ret true ->
  Ldap.search_root env = Ret false ->
  after_probe env h p ul st t (fun r tr =>
    Ldap.success r = true /\
    Ldap.error r = None /\
    dict_get (Ldap.metadata r) (lit "rootDSE_search_result")
      = Some (Ldap.root_result env) /\
    dict_get (Ldap.metadata r) (lit "namingContexts_missing")
      = Some (Ldap.VBool true) /\
    dict_has (Ldap.metadata r) (lit "rootDSE") = false /\
    dict_has (Ldap.metadata r) (lit "sample_base_found") = false /\
    filter is_search tr = [Ldap.EvSearch (Ldap.VStr [])]).
Proof.
  intros (H1 & H2 & H3 & H4 & H5) Hb Hsr.
  destruct st; [destruct (H5 eq_refl) as [-> H6]|clear H5].
  all: unfold after_probe, Ldap.try_anonymous_bind,
         Ldap.try_anonymous_bind_from, Ldap.probe_body, Ldap.ldap_ops,
         Ldap.cleanup.
  all: unfold Ldap.try_finally, Ldap.try_except, Ldap.mbind, Ldap.attempt,
         Ldap.tcp_gate, Ldap.mbind, Ldap.now, Ldap.call, Ldap.ret, Ldap.raise,
         Ldap.get_conn, Ldap.set_conn, Ldap.set_timing, Ldap.set_error,
         Ldap.set_success, Ldap.update.
  all: repeat empty_root_step Hsr.
  all: world_simpl.
  all: try congruence.
  all: destruct Hmd as (M1 & M2 & M3 & M4).
  all: repeat split; assumption.
Qed.

Lemma empty_root_dse_result_witness :
  after_probe (directory (Ret tt) (Ret true) (Ret true) [])
              (lit "ldap.example.com") 389 false false 5 (fun r tr =>
    Ldap.success r = true /\
    Ldap.error r = None /\
    dict_get (Ldap.metadata r) (lit "rootDSE_search_result")
      = Some (Ldap.root_result
                (directory (Ret tt) (Ret true) (Ret true) [])) /\
    dict_get (Ldap.metadata r) (lit "namingContexts_missing")
      = Some (Ldap.VBool true) /\
    dict_has (Ldap.metadata r) (lit "rootDSE") = false /\
    dict_has (Ldap.metadata r) (lit "sample_base_found") = false /\
    filter is_search tr = [Ldap.EvSearch (Ldap.VStr [])]).
Proof.
  apply (empty_root_dse_result
           (directory (Ret tt) (Ret true) (Ret true) [])).
  - unfold bind_reached. repeat split; discriminate.
  - reflexivity.
  - reflexivity.
Defined.

(* ================================================================== *)
(** ** normalize_host and main of ldap_anonymous_check.py *)
(* ================================================================== *)

Lemma startswith_nil s : startswith s [] = true.
Proof. destruct s; reflexivity. Qed.

Lemma startswith_split s p :
  startswith s p = true -> s = p ++ skipn (List.length p) s.
Proof.
  revert s; induction p as [|c p IH]; intros s H; [reflexivity|].
  destruct s as [|x s]; [discriminate|].
  cbn [startswith] in H. apply andb_true_iff in H as [Hc Hs].
  apply Z.eqb_eq in Hc. subst x. cbn [List.length skipn app].
  f_equal. apply IH. exact Hs.
Qed.

(** X21: [normalize_host] never raises; it removes a leading "ldap://"
    or "ldaps://" and nothing else, and leaves every other host as it
    is. *)
Theorem normalize_host_strips_scheme host :
  Ldap.normalize_host host =
  Ret (if startswith host (lit "ldap://") then skipn 7 host
       else if startswith host (lit "ldaps://") then skipn 8 host
       else host).
Proof.
  unfold Ldap.normalize_host.
  destruct (startswith host (lit "ldap://")) eqn:E1.
  - apply startswith_split in E1. cbn [orb].
    change (List.length (lit "ldap://")) with 7%nat in E1.
    rewrite E1 at 1. cbn. rewrite startswith_nil. reflexivity.
  - cbn [orb]. destruct (startswith host (lit "ldaps://")) eqn:E2;
      [|reflexivity].
    apply startswith_split in E2.
    change (List.length (lit "ldaps://")) with 8%nat in E2.
    rewrite E2 at 1. cbn. rewrite startswith_nil. reflexivity.
Qed.

Lemma no_colon_filter s :
  no_colon s = true -> filter (fun c => c =? Ldap.colon) s = [].
Proof.
  induction s as [|c s IH]; [reflexivity|].
  cbn [no_colon forallb filter]. intros H.
  apply andb_true_iff in H as [Hc Hs].
  destruct (c =? Ldap.colon); [discriminate|]. apply IH. exact Hs.
Qed.

Lemma no_colon_rsplit s : no_colon s = true -> Ldap.rsplit_colon s = None.
Proof.
  induction s as [|c s IH]; [reflexivity|].
  cbn [no_colon forallb Ldap.rsplit_colon]. intros H.
  apply andb_true_iff in H as [Hc Hs].
  rewrite (IH Hs). destruct (c =? Ldap.colon); [discriminate|reflexivity].
Qed.

Lemma rsplit_last_colon before after :
  no_colon after = true ->
  Ldap.rsplit_colon (before ++ Ldap.colon :: after) = Some (before, after).
Proof.
  intros H. induction before as [|c before IH].
  - cbn [app Ldap.rsplit_colon]. rewrite (no_colon_rsplit _ H).
    rewrite Z.eqb_refl. reflexivity.
  - cbn [app Ldap.rsplit_colon]. rewrite IH. reflexivity.
Qed.

Lemma contains_middle before x after :
  contains (before ++ x :: after) [x] = true.
Proof.
  induction before as [|c before IH].
  - cbn [app contains startswith]. rewrite Z.eqb_refl, startswith_nil.
    reflexivity.
  - cbn [app contains]. rewrite IH. apply orb_true_r.
Qed.

(** X22: a host written [name:digits], with one colon and no leading
    bracket, is split; the port is then the number after the colon,
    whatever [--port] says. *)
Theorem shorthand_port_wins db args before digits n :
  Ldap.normalize_host (Ldap.arg_host args)
    = Ret (before ++ Ldap.colon :: digits) ->
  no_colon before = true ->
  no_colon digits = true ->
  startswith (before ++ Ldap.colon :: digits) (lit "[") = false ->
  Ldap.str_isdigit db digits = true ->
  Ldap.int_of_str db digits = Ret n ->
  Ldap.parse_target db args = Ret (before, Some n) /\
  chosen_port args (Some n) = n.
Proof.
  intros Hn Hb Hd Hbr Hdig Hint. split; [|reflexivity].
  unfold Ldap.parse_target. rewrite Hn. cbn [rbind].
  rewrite contains_middle, Hbr.
  unfold Ldap.count_colon. rewrite filter_app. cbn [filter].
  rewrite Z.eqb_refl, (no_colon_filter _ Hb), (no_colon_filter _ Hd).
  cbn [app andb negb]. change (Snmp.len [Ldap.colon] =? 1) with true.
  cbv iota. rewrite (rsplit_last_colon _ _ Hd), Hdig, Hint. reflexivity.
Qed.

Lemma shorthand_port_wins_witness :
  Ldap.parse_target Ldap.sample_db port_in_host
    = Ret (lit "ldap.example.com", Some 1389) /\
  chosen_port port_in_host (Some 1389) = 1389.
Proof.
  apply (shorthand_port_wins Ldap.sample_db port_in_host
           (lit "ldap.example.com") (lit "1389") 1389); reflexivity.
Defined.




(* ================================================================== *)
(** ** Failures before the bind *)
(* ================================================================== *)

(** X24: when the server object cannot be built, the probe stops there:
    the error is "Server object creation failed: ..." with the text of
    the exception, the TCP timing is kept, and no connection is made,
    so there is nothing to unbind. *)
Theorem server_failure_result env h p ul st t e :
  Ldap.create_connection env h p t = Ret tt ->
  Ldap.Server env h p ul t = Raise e ->
  after_probe env h p ul st t (fun r tr =>
    Ldap.success r = false /\
    Ldap.error r = Some (lit "Server object creation failed: " ++ emsg e) /\
    dict_keys (Ldap.timings r) = [lit "tcp_connect_s"; lit "total_s"] /\
    tr = [Ldap.EvTcpConnect h p t; Ldap.EvServer h p ul t]).
Proof.
  intros H1 H2. probe_paths env.
  all: try congruence.
  all: replace e with e0 by congruence; repeat split.
Qed.

Lemma server_failure_result_witness :
  after_probe
    (directory (Raise (Exn ValueError (lit "bad host"))) (Ret true) (Ret true) [])
    (lit "ldap.example.com") 389 false false 5 (fun r tr =>
    Ldap.success r = false /\
    Ldap.error r = Some (lit "Server object creation failed: "
                         ++ emsg (Exn ValueError (lit "bad host"))) /\
    dict_keys (Ldap.timings r) = [lit "tcp_connect_s"; lit "total_s"] /\
    tr = [Ldap.EvTcpConnect (lit "ldap.example.com") 389 5;
          Ldap.EvServer (lit "ldap.example.com") 389 false 5]).
Proof.
  apply server_failure_result; reflexivity.
Defined.

(** X25: when [conn.open()] returns a false value, the error is
    "Exception during LDAP operations: Failed to open connection to
    server"; neither StartTLS nor the bind is attempted, [bind_s] is not
    recorded, and the connection is still unbound. *)
Theorem open_failure_result env h p ul st t :
  Ldap.create_connection env h p t = Ret tt ->
  Ldap.Server env h p ul t = Ret tt ->
  Ldap.Connection env = Ret tt ->
  Ldap.conn_open env = Ret false ->
  after_probe env h p ul st t (fun r tr =>
    Ldap.success r = false /\
    Ldap.error r =
      Some (lit "Exception during LDAP operations: Failed to open connection to server") /\
    dict_keys (Ldap.timings r) = [lit "tcp_connect_s"; lit "total_s"] /\
    tr = [Ldap.EvTcpConnect h p t; Ldap.EvServer h p ul t;
          Ldap.EvConnection; Ldap.EvOpen; Ldap.EvUnbind]).
Proof.
  intros H1 H2 H3 H4. probe_paths env.
  all: try congruence.
  all: repeat split.
Qed.

Lemma open_failure_result_witness :
  after_probe
    (directory (Ret tt) (Ret false) (Ret true) [])
    (lit "ldap.example.com") 389 false true 5 (fun r tr =>
    Ldap.success r = false /\
    Ldap.error r =
      Some (lit "Exception during LDAP operations: Failed to open connection to server") /\
    dict_keys (Ldap.timings r) = [lit "tcp_connect_s"; lit "total_s"] /\
    tr = [Ldap.EvTcpConnect (lit "ldap.example.com") 389 5;
          Ldap.EvServer (lit "ldap.example.com") 389 false 5;
          Ldap.EvConnection; Ldap.EvOpen; Ldap.EvUnbind]).
Proof.
  apply open_failure_result; reflexivity.
Defined.

(** X26: when StartTLS is asked for without LDAPS and the upgrade
    returns a false value, the error is "Exception during LDAP
    operations: StartTLS failed: ..." with the connection's last error;
    the bind is not attempted and the connection is unbound. *)
Theorem starttls_failure_result env h p t :
  Ldap.create_connection env h p t = Ret tt ->
  Ldap.Server env h p false t = Ret tt ->
  Ldap.Connection env = Ret tt ->
  Ldap.conn_open env = Ret true ->
  Ldap.conn_start_tls env = Ret false ->
  after_probe env h p false true t (fun r tr =>
    Ldap.success r = false /\
    Ldap.error r =
      Some (lit "Exception during LDAP operations: StartTLS failed: "
            ++ Ldap.conn_last_error env) /\
    dict_has (Ldap.timings r) (lit "bind_s") = false /\
    tr = [Ldap.EvTcpConnect h p t; Ldap.EvServer h p false t;
          Ldap.EvConnection; Ldap.EvOpen; Ldap.EvStartTls; Ldap.EvUnbind]).
Proof.
  intros H1 H2 H3 H4 H5. probe_paths env.
  all: try congruence.
  all: repeat split.
Qed.

Lemma starttls_failure_result_witness :
  after_probe
    (directory (Ret tt) (Ret true) (Ret false) (lit "handshake refused"))
    (lit "ldap.example.com") 389 false true 5 (fun r tr =>
    Ldap.success r = false /\
    Ldap.error r =
      Some (lit "Exception during LDAP operations: StartTLS failed: "
            ++ lit "handshake refused") /\
    dict_has (Ldap.timings r) (lit "bind_s") = false /\
    tr = [Ldap.EvTcpConnect (lit "ldap.example.com") 389 5;
          Ldap.EvServer (lit "ldap.example.com") 389 false 5;
          Ldap.EvConnection; Ldap.EvOpen; Ldap.EvStartTls; Ldap.EvUnbind]).
Proof.
  apply starttls_failure_result; reflexivity.
Defined.
